(** * The message-call and contract-creation dispatcher of core/vm

    A shallow embedding of [environment.go] (package [vm] of the vendored
    go-ethereum): the four entry points [Call], [CallCode], [DelegateCall]
    and [Create] of [EVM], together with the collaborators they drive (the
    state database, the call frame, the interpreter, the chain rules).

    The entry points are written in a small state-and-log monad: the state
    is the [StateDB] the [EVM] points to, and the log records, in program
    order, every call the dispatcher makes on a collaborator. *)

From Stdlib Require Import ZArith List Bool String Lia.
From Stdlib.Strings Require Import Byte.
From stdpp Require Import base option list gmap strings.
Import ListNotations.
Local Open Scope Z_scope.

(** ** Data *)

(** [common.Address] is [[20]byte] and [common.Hash] is [[32]byte]; both are
    represented by the integer they spell in big-endian order.  The zero
    value [common.Address{}] is [0]. *)
Abbreviation Address := Z (only parsing).
Abbreviation Hash := Z (only parsing).

Definition zeroAddress : Address := 0.

(** [uint64] arithmetic wraps around. *)
Definition uint64_mod : Z := 2 ^ 64.
Definition uint64_add (a b : Z) : Z := (a + b) mod uint64_mod.

(** [BitLen] of [big.Int]: the length of the absolute value in bits, [0] for
    zero. *)
Definition BitLen (x : Z) : Z :=
  if Z.abs x =? 0 then 0 else Z.log2 (Z.abs x) + 1.

(** Modelled from the spec: the account record owned by the state view
    (state objects are not part of this package).  Only what the dispatcher
    reads and writes is kept: balance, nonce and code. *)
Record Account := mkAccount {
  acc_balance : Z;
  acc_nonce : Z;
  acc_code : list byte
}.

Definition emptyAccount : Account := mkAccount 0 0 [].

(** Modelled from the spec: the state view with its snapshots.  [revisions]
    holds, oldest first, the account table saved by each snapshot that is
    still valid; a snapshot handle is the position of its entry. *)
Record StateDB := mkStateDB {
  accounts : gmap Z Account;
  revisions : list (gmap Z Account)
}.

(** [ContractRef]: what the dispatcher asks of its caller, namely
    [Address()], [Value()] and, for the delegate frame, the caller's own
    caller. *)
Record ContractRef := mkContractRef {
  ref_Address : Address;
  ref_Value : Z;
  ref_CallerAddress : Address
}.

(** Modelled from the spec: the call frame ([Contract], declared in
    contract.go).  An [Account] handle ([to], [self]) is the address of the
    account it refers to. *)
Record Contract := mkContract {
  c_CallerAddress : Address;
  c_caller : ContractRef;
  c_self : Address;
  c_Code : list byte;
  c_CodeHash : Hash;
  c_CodeAddr : option Address;
  c_value : Z;
  c_Gas : Z;
  c_DelegateCall : bool
}.

(** What one run of the interpreter leaves behind: the output, the fault
    (if any), the gas remaining on the frame and the state database. *)
Record RunResult := mkRunResult {
  run_ret : list byte;
  run_err : option string;
  run_Gas : Z;
  run_db : StateDB
}.

(** Modelled from the spec: the error values of package [vm] (errors.go)
    and the opaque execution fault raised inside the interpreter, which
    carries the interpreter's message.  [ErrInsufficientFunds] is the
    [fmt.Errorf] value built by [CallCode]. *)
Inductive error :=
| ErrDepth
| ErrInsufficientBalance
| ErrCodeStoreOutOfGas
| ErrInsufficientFunds (req has : Z)
| ExecutionFault (msg : string).

#[global] Instance error_eq_dec : EqDecision error.
Proof. solve_decision. Defined.

(** Modelled from the spec: the chain-rules oracle ([params.ChainConfig]).
    A rule is active from its activation block on; [None] means never. *)
Module params.

Record ChainConfig := mkChainConfig {
  HomesteadBlock : option Z;
  EIP158Block : option Z
}.

Definition isForked (s : option Z) (num : Z) : bool :=
  match s with
  | Some b => b <=? num
  | None => false
  end.

Definition IsHomestead (c : ChainConfig) (num : Z) : bool :=
  isForked (HomesteadBlock c) num.

Definition IsEIP158 (c : ChainConfig) (num : Z) : bool :=
  isForked (EIP158Block c) num.

End params.

(** [Context]: the callbacks and the block and message information. *)
Record Context := mkContext {
  CanTransfer : StateDB -> Address -> Z -> bool;
  Transfer : StateDB -> Address -> Address -> Z -> StateDB;
  GetHash : Z -> Hash;
  Origin : Address;
  GasPrice : Z;
  Coinbase : Address;
  GasLimit : Z;
  BlockNumber : Z;
  Time : Z;
  Difficulty : Z
}.

Record Config := mkConfig {
  NoRecursion : bool
}.

(** [Interpreter.Run], seen from the dispatcher: a function of the frame,
    the input and the state database it is given. *)
Definition Interpreter : Type := Contract -> list byte -> StateDB -> RunResult.

Record EVM := mkEVM {
  evm_Context : Context;
  depth : Z;
  chainConfig : params.ChainConfig;
  vmConfig : Config;
  interpreter : Interpreter;
  abort : Z
}.

(** Constants, tables and primitives of other packages that the dispatcher
    consumes: [params.CallCreateDepth], [params.MaxCodeSize],
    [params.CreateDataGas], the [PrecompiledContracts] table,
    [crypto.Keccak256Hash] and [crypto.CreateAddress]. *)
Class Externals := mkExternals {
  CallCreateDepth : Z;
  MaxCodeSize : Z;
  CreateDataGas : Z;
  PrecompiledContracts : gmap Z (list byte -> list byte);
  Keccak256Hash : list byte -> Hash;
  CreateAddress : Address -> Z -> Address
}.

(** The calls the dispatcher makes on its collaborators. *)
Inductive Event :=
| EvReturnGas (caller : ContractRef) (gas : Z)
| EvCanTransfer (a : Address) (v : Z) (ok : bool)
| EvGetBalance (a : Address)
| EvSnapshot (id : nat)
| EvRevertToSnapshot (id : nat)
| EvExist (a : Address) (b : bool)
| EvCreateAccount (a : Address)
| EvGetAccount (a : Address)
| EvTransfer (from to : Address) (v : Z)
| EvGetCodeHash (a : Address)
| EvGetCode (a : Address)
| EvGetNonce (a : Address) (n : Z)
| EvSetNonce (a : Address) (n : Z)
| EvSetCode (a : Address) (code : list byte)
| EvRun (c : Contract) (input : list byte) (r : RunResult)
| EvFinalise (c : Contract).

(** ** The state view *)

Module statedb.

Definition get (s : StateDB) (a : Address) : Account :=
  default emptyAccount (accounts s !! a).

Definition put (s : StateDB) (a : Address) (x : Account) : StateDB :=
  mkStateDB (<[a := x]> (accounts s)) (revisions s).

Definition Exist (s : StateDB) (a : Address) : bool :=
  match accounts s !! a with Some _ => true | None => false end.

Definition CreateAccount (s : StateDB) (a : Address) : StateDB :=
  put s a emptyAccount.

Definition GetBalance (s : StateDB) (a : Address) : Z := acc_balance (get s a).
Definition GetNonce (s : StateDB) (a : Address) : Z := acc_nonce (get s a).
Definition GetCode (s : StateDB) (a : Address) : list byte := acc_code (get s a).

Definition SetNonce (s : StateDB) (a : Address) (n : Z) : StateDB :=
  put s a (mkAccount (acc_balance (get s a)) n (acc_code (get s a))).

Definition SetCode (s : StateDB) (a : Address) (c : list byte) : StateDB :=
  put s a (mkAccount (acc_balance (get s a)) (acc_nonce (get s a)) c).

Definition SetBalance (s : StateDB) (a : Address) (b : Z) : StateDB :=
  put s a (mkAccount b (acc_nonce (get s a)) (acc_code (get s a))).

(** The handle of a new snapshot is the number of snapshots taken before
    it that are still valid. *)
Definition Snapshot (s : StateDB) : nat * StateDB :=
  (length (revisions s),
   mkStateDB (accounts s) (revisions s ++ [accounts s])).

(** Reverting restores the saved account table and invalidates the
    snapshot and all later ones; a handle that is not valid leaves the
    state as it is. *)
Definition RevertToSnapshot (s : StateDB) (id : nat) : StateDB :=
  match revisions s !! id with
  | Some saved => mkStateDB saved (take id (revisions s))
  | None => s
  end.

End statedb.

(** ** The call frame *)

(** Modelled from the spec: [NewContract], [SetCallCode], [AsDelegate] and
    [UseGas] of contract.go. *)
Definition NewContract (caller : ContractRef) (object : Address) (value gas : Z)
  : Contract :=
  mkContract (ref_Address caller) caller object [] 0 None value gas false.

Definition SetCallCode (c : Contract) (addr : Address) (hash : Hash)
  (code : list byte) : Contract :=
  mkContract (c_CallerAddress c) (c_caller c) (c_self c) code hash (Some addr)
    (c_value c) (c_Gas c) (c_DelegateCall c).

(** The delegate frame borrows the caller identity and the value of its
    parent. *)
Definition AsDelegate (c : Contract) : Contract :=
  mkContract (ref_CallerAddress (c_caller c)) (c_caller c) (c_self c)
    (c_Code c) (c_CodeHash c) (c_CodeAddr c) (ref_Value (c_caller c))
    (c_Gas c) true.

(** [UseGas] charges [gas] to the frame when the frame can pay it and
    reports whether it could. *)
Definition setGas (c : Contract) (gas : Z) : Contract :=
  mkContract (c_CallerAddress c) (c_caller c) (c_self c) (c_Code c)
    (c_CodeHash c) (c_CodeAddr c) (c_value c) gas (c_DelegateCall c).

Definition UseGas (c : Contract) (gas : Z) : bool * Contract :=
  if c_Gas c <? gas then (false, c)
  else (true, setGas c (c_Gas c - gas)).

(** ** The monad of the dispatcher *)

Definition M (A : Type) : Type := StateDB -> A * StateDB * list Event.

Definition Return {A} (a : A) : M A := fun s => (a, s, []).

Definition Bind {A B} (m : M A) (k : A -> M B) : M B :=
  fun s =>
    let '(a, s1, t1) := m s in
    let '(b, s2, t2) := k a s1 in
    (b, s2, t1 ++ t2).

Declare Scope evm_scope.
Delimit Scope evm_scope with evm.
Notation "x <- m ;; k" := (Bind m (fun x => k))
  (at level 100, m at next level, right associativity) : evm_scope.
Notation "m ;; k" := (Bind m (fun _ => k))
  (at level 100, right associativity) : evm_scope.
Local Open Scope evm_scope.

Definition result {A} (r : A * StateDB * list Event) : A := fst (fst r).
Definition final {A} (r : A * StateDB * list Event) : StateDB := snd (fst r).
Definition events {A} (r : A * StateDB * list Event) : list Event := snd r.

(** A read of the state database, a write to it, and a bare log entry. *)
Definition reading {A} (f : StateDB -> A) (e : A -> Event) : M A :=
  fun s => (f s, s, [e (f s)]).

Definition writing (f : StateDB -> StateDB) (e : Event) : M unit :=
  fun s => (tt, f s, [e]).

Definition logging (e : Event) : M unit := fun s => (tt, s, [e]).

(** [StateDB.GetCodeHash]: the hash of the code of an account, the zero
    hash when there is no account. *)
Definition codeHash `{Externals} (s : StateDB) (a : Address) : Hash :=
  if statedb.Exist s a then Keccak256Hash (statedb.GetCode s a) else 0.

Section Primitives.

Variable evm : EVM.

(** [caller.ReturnGas(gas)] *)
Definition ReturnGas (caller : ContractRef) (gas : Z) : M unit :=
  logging (EvReturnGas caller gas).

(** [evm.CanTransfer(evm.StateDB, a, v)] *)
Definition doCanTransfer (a : Address) (v : Z) : M bool :=
  reading (fun s => CanTransfer (evm_Context evm) s a v) (EvCanTransfer a v).

(** [evm.Transfer(evm.StateDB, from, to, v)] *)
Definition doTransfer (from to : Address) (v : Z) : M unit :=
  writing (fun s => Transfer (evm_Context evm) s from to v)
    (EvTransfer from to v).

Definition GetBalance (a : Address) : M Z :=
  reading (fun s => statedb.GetBalance s a) (fun _ => EvGetBalance a).

Definition Snapshot : M nat :=
  fun s => (fst (statedb.Snapshot s), snd (statedb.Snapshot s),
            [EvSnapshot (fst (statedb.Snapshot s))]).

Definition RevertToSnapshot (id : nat) : M unit :=
  writing (fun s => statedb.RevertToSnapshot s id) (EvRevertToSnapshot id).

Definition Exist (a : Address) : M bool :=
  reading (fun s => statedb.Exist s a) (EvExist a).

Definition CreateAccount (a : Address) : M Address :=
  fun s => (a, statedb.CreateAccount s a, [EvCreateAccount a]).

Definition GetAccount (a : Address) : M Address :=
  reading (fun _ => a) (fun _ => EvGetAccount a).

Definition GetNonce (a : Address) : M Z :=
  reading (fun s => statedb.GetNonce s a) (EvGetNonce a).

Definition SetNonce (a : Address) (n : Z) : M unit :=
  writing (fun s => statedb.SetNonce s a n) (EvSetNonce a n).

Definition GetCode (a : Address) : M (list byte) :=
  reading (fun s => statedb.GetCode s a) (fun _ => EvGetCode a).

Definition GetCodeHash `{Externals} (a : Address) : M Hash :=
  reading (fun s => codeHash s a) (fun _ => EvGetCodeHash a).

Definition SetCode (a : Address) (c : list byte) : M unit :=
  writing (fun s => statedb.SetCode s a c) (EvSetCode a c).

(** [evm.interpreter.Run(contract, input)]: the interpreter works on the
    frame and on the state database in place; the frame comes back with
    the gas the run has left on it. *)
Definition Run (contract : Contract) (input : list byte)
  : M (list byte * option error * Contract) :=
  fun s =>
    let r := interpreter evm contract input s in
    ((run_ret r, ExecutionFault <$> run_err r, setGas contract (run_Gas r)),
     run_db r, [EvRun contract input r]).

(** [contract.Finalise()], deferred in the source: it runs last on every
    path that has built the frame, on the frame as the invocation leaves
    it.  What [Finalise] does with the gas left on that frame belongs to
    contract.go; the log keeps the frame, and with it that gas.  An
    [EvReturnGas] entry stands for a call of [ReturnGas] that an entry
    point makes itself. *)
Definition Finalise (contract : Contract) : M unit :=
  logging (EvFinalise contract).

End Primitives.

(** ** The dispatcher *)

Section Dispatcher.

Context `{Externals}.
Variable evm : EVM.

(** [EVM.ChainConfig] *)
Definition ChainConfig : params.ChainConfig := chainConfig evm.

(** [EVM.Call] *)
Definition Call (caller : ContractRef) (addr : Address) (input : list byte)
  (gas value : Z) : M (list byte * option error) :=
  if NoRecursion (vmConfig evm) && (depth evm >? 0) then
    ReturnGas caller gas ;;
    Return ([], None)
  else if depth evm >? CallCreateDepth then
    ReturnGas caller gas ;;
    Return ([], Some ErrDepth)
  else
    ok <- doCanTransfer evm (ref_Address caller) value ;;
    if negb ok then
      ReturnGas caller gas ;;
      Return ([], Some ErrInsufficientBalance)
    else
      snapshot <- Snapshot ;;
      let run (to : Address) : M (list byte * option error) :=
        doTransfer evm (ref_Address caller) to value ;;
        let contract := NewContract caller to value gas in
        codeHash <- GetCodeHash addr ;;
        code <- GetCode addr ;;
        let contract := SetCallCode contract addr codeHash code in
        r <- Run evm contract input ;;
        let '(ret, err, contract) := r in
        match err with
        | Some _ =>
            let contract := snd (UseGas contract (c_Gas contract)) in
            RevertToSnapshot snapshot ;;
            Finalise contract ;;
            Return (ret, err)
        | None =>
            Finalise contract ;;
            Return (ret, err)
        end in
      exist <- Exist addr ;;
      if negb exist then
        if bool_decide (PrecompiledContracts !! addr = None)
           && params.IsEIP158 ChainConfig (BlockNumber (evm_Context evm))
           && (BitLen value =? 0) then
          ReturnGas caller gas ;;
          Return ([], None)
        else
          to <- CreateAccount addr ;;
          run to
      else
        to <- GetAccount addr ;;
        run to.

(** [EVM.CallCode] *)
Definition CallCode (caller : ContractRef) (addr : Address)
  (input : list byte) (gas value : Z) : M (list byte * option error) :=
  if NoRecursion (vmConfig evm) && (depth evm >? 0) then
    ReturnGas caller gas ;;
    Return ([], None)
  else if depth evm >? CallCreateDepth then
    ReturnGas caller gas ;;
    Return ([], Some ErrDepth)
  else
    ok <- doCanTransfer evm (ref_Address caller) value ;;
    if negb ok then
      ReturnGas caller gas ;;
      has <- GetBalance (ref_Address caller) ;;
      Return ([], Some (ErrInsufficientFunds value has))
    else
      snapshot <- Snapshot ;;
      to <- GetAccount (ref_Address caller) ;;
      let contract := NewContract caller to value gas in
      codeHash <- GetCodeHash addr ;;
      code <- GetCode addr ;;
      let contract := SetCallCode contract addr codeHash code in
      r <- Run evm contract input ;;
      let '(ret, err, contract) := r in
      match err with
      | Some _ =>
          let contract := snd (UseGas contract (c_Gas contract)) in
          RevertToSnapshot snapshot ;;
          Finalise contract ;;
          Return (ret, err)
      | None =>
          Finalise contract ;;
          Return (ret, err)
      end.

(** [EVM.DelegateCall] *)
Definition DelegateCall (caller : ContractRef) (addr : Address)
  (input : list byte) (gas : Z) : M (list byte * option error) :=
  if NoRecursion (vmConfig evm) && (depth evm >? 0) then
    ReturnGas caller gas ;;
    Return ([], None)
  else if depth evm >? CallCreateDepth then
    ReturnGas caller gas ;;
    Return ([], Some ErrDepth)
  else
    snapshot <- Snapshot ;;
    to <- GetAccount (ref_Address caller) ;;
    let contract := AsDelegate (NewContract caller to (ref_Value caller) gas) in
    codeHash <- GetCodeHash addr ;;
    code <- GetCode addr ;;
    let contract := SetCallCode contract addr codeHash code in
    r <- Run evm contract input ;;
    let '(ret, err, contract) := r in
    match err with
    | Some _ =>
        let contract := snd (UseGas contract (c_Gas contract)) in
        RevertToSnapshot snapshot ;;
        Finalise contract ;;
        Return (ret, err)
    | None =>
        Finalise contract ;;
        Return (ret, err)
    end.

(** [EVM.Create] *)
Definition Create (caller : ContractRef) (code : list byte) (gas value : Z)
  : M (list byte * Address * option error) :=
  if NoRecursion (vmConfig evm) && (depth evm >? 0) then
    ReturnGas caller gas ;;
    Return ([], zeroAddress, None)
  else if depth evm >? CallCreateDepth then
    ReturnGas caller gas ;;
    Return ([], zeroAddress, Some ErrDepth)
  else
    ok <- doCanTransfer evm (ref_Address caller) value ;;
    if negb ok then
      ReturnGas caller gas ;;
      Return ([], zeroAddress, Some ErrInsufficientBalance)
    else
      nonce <- GetNonce (ref_Address caller) ;;
      SetNonce (ref_Address caller) (uint64_add nonce 1) ;;
      snapshot <- Snapshot ;;
      let contractAddr := CreateAddress (ref_Address caller) nonce in
      to <- CreateAccount contractAddr ;;
      (if params.IsEIP158 ChainConfig (BlockNumber (evm_Context evm))
       then SetNonce contractAddr 1 else Return tt) ;;
      doTransfer evm (ref_Address caller) to value ;;
      let contract := NewContract caller to value gas in
      let contract := SetCallCode contract contractAddr (Keccak256Hash code) code in
      r <- Run evm contract [] ;;
      let '(ret, err, contract) := r in
      let maxCodeSizeExceeded := Z.of_nat (length ret) >? MaxCodeSize in
      r <- (if bool_decide (err = None) && negb maxCodeSizeExceeded then
              let dataGas := Z.of_nat (length ret) * CreateDataGas in
              let '(paid, contract) := UseGas contract dataGas in
              if paid then
                SetCode contractAddr ret ;;
                Return (err, contract)
              else
                Return (Some ErrCodeStoreOutOfGas, contract)
            else Return (err, contract)) ;;
      let '(err, contract) := r in
      if maxCodeSizeExceeded
         || (bool_decide (err <> None)
             && (params.IsHomestead ChainConfig (BlockNumber (evm_Context evm))
                 || bool_decide (err <> Some ErrCodeStoreOutOfGas))) then
        let contract := snd (UseGas contract (c_Gas contract)) in
        RevertToSnapshot snapshot ;;
        let err := if maxCodeSizeExceeded && bool_decide (err = None)
                   then Some ErrCodeStoreOutOfGas else err in
        Finalise contract ;;
        Return ([], contractAddr, err)
      else
        let ret := if bool_decide (err <> None) then [] else ret in
        Finalise contract ;;
        Return (ret, contractAddr, err).

(** [EVM.Cancel] *)
Definition Cancel : EVM :=
  mkEVM (evm_Context evm) (depth evm) (chainConfig evm) (vmConfig evm)
    (interpreter evm) 1.

End Dispatcher.

(** ** Well-behaved collaborators *)

(** The transfer callback and the interpreter reach the state database
    through its interface: they may take snapshots of their own and revert
    to them, but the snapshots that are valid when they start are still
    valid, and in the same positions, when they return. *)
Definition keeps_revisions (s s' : StateDB) : Prop :=
  revisions s `prefix_of` revisions s'.

Definition well_behaved (evm : EVM) : Prop :=
  (forall s from to v,
      keeps_revisions s (Transfer (evm_Context evm) s from to v)) /\
  (forall c input s,
      keeps_revisions s (run_db (interpreter evm c input s))).

(** ** Reading an outcome *)

(** The frame handed to [Finalise] when the invocation returns. *)
Definition finalised {A} (o : A * StateDB * list Event) : option Contract :=
  match last (events o) with
  | Some (EvFinalise c) => Some c
  | _ => None
  end.

(** The no-recursion mode answers every nested invocation at once. *)
Definition no_recursion_applies (evm : EVM) : bool :=
  NoRecursion (vmConfig evm) && (depth evm >? 0).

(** The state in which [Create] takes its snapshot: the state it starts in
    with the nonce of the caller incremented. *)
Definition nonce_bumped (s : StateDB) (caller : ContractRef) : StateDB :=
  statedb.SetNonce s (ref_Address caller)
    (uint64_add (statedb.GetNonce s (ref_Address caller)) 1).

(** What [Call], [CallCode] and [DelegateCall] owe once the interpreter has
    run with result [r], for an invocation started in state [s] with
    outcome [o]: on a fault, the fault as error, a frame without gas, and
    the state reverted to the snapshot of the invocation, which is [s]; on
    success the output and the state of the interpreter, and no revert. *)
Definition settled (evm : EVM) (s : StateDB) (r : RunResult)
  (o : list byte * option error * StateDB * list Event) : Prop :=
  match run_err r with
  | Some msg =>
      result o = (run_ret r, Some (ExecutionFault msg))
      /\ (exists c', finalised o = Some c' /\ c_Gas c' = 0)
      /\ (exists id,
            In (EvSnapshot id) (events o)
            /\ In (EvRevertToSnapshot id) (events o)
            /\ final o = statedb.RevertToSnapshot (run_db r) id)
      /\ (well_behaved evm -> final o = s)
  | None =>
      result o = (run_ret r, None)
      /\ (forall id, ~ In (EvRevertToSnapshot id) (events o))
      /\ final o = run_db r
  end.

(** Modelled from the spec: [crypto.CreateAddress] is not part of these
    sources.  The spec asks of it that, for one creator, different nonce
    values derive different addresses; nonces are [uint64] values. *)
Definition nonce_injective `{Externals} : Prop :=
  forall creator n1 n2,
    0 <= n1 < uint64_mod -> 0 <= n2 < uint64_mod ->
    CreateAddress creator n1 = CreateAddress creator n2 -> n1 = n2.

(** ** A concrete setting for the examples *)

(** The usual callbacks: a transfer is permitted when the balance of the
    sender covers it, and moves the amount from sender to recipient. *)
Definition sufficientBalance (s : StateDB) (a : Address) (amount : Z) : bool :=
  amount <=? statedb.GetBalance s a.

Definition moveBalance (s : StateDB) (from to : Address) (amount : Z)
  : StateDB :=
  let s1 := statedb.SetBalance s from (statedb.GetBalance s from - amount) in
  statedb.SetBalance s1 to (statedb.GetBalance s1 to + amount).

(** The historical depth limit and gas price of code, no precompiled
    contract, and stand-ins for the two hash-based primitives. *)
Definition externalsWith (maxCodeSize : Z) : Externals :=
  mkExternals 1024 maxCodeSize 200 ∅
    (fun code => Z.of_nat (length code))
    (fun a n => a * uint64_mod + n).

(** With the historical limit on the size of code, and with a limit of one
    byte. *)
Definition exampleExternals : Externals := externalsWith 24576.
Definition tightExternals : Externals := externalsWith 1.

(** An interpreter that follows a script: it sets the nonce of the account
    it runs in to [7], takes a snapshot of its own, uses [used] gas and
    returns [out] and [err]. *)
Definition scripted (out : list byte) (err : option string) (used : Z)
  : Interpreter :=
  fun c _ s =>
    mkRunResult out err (c_Gas c - used)
      (snd (statedb.Snapshot (statedb.SetNonce s (c_self c) 7))).

Definition exampleEVM (d : Z) (norec : bool) (homestead eip158 : option Z)
  (number : Z) (run : Interpreter) : EVM :=
  mkEVM (mkContext sufficientBalance moveBalance (fun _ => 0) 0 0 0 0 number 0 0)
    d (params.mkChainConfig homestead eip158) (mkConfig norec) run 0.

(** The caller is the account at address [202], with balance [100] and
    nonce [5]; nothing else exists. *)
Definition alice : ContractRef := mkContractRef 202 0 201.

Definition db0 : StateDB := mkStateDB {[ 202 := mkAccount 100 5 [] ]} [].

Definition hello : list byte := [x68; x69].

(** ** The constructor *)

(** [NewEVM].  The state database the new [EVM] points to is the state the
    entry points are run in.  [NewInterpreter] belongs to the interpreter
    and is a parameter; what it is given when it is called is the context,
    the chain configuration and the configuration of the machine, at depth
    zero.  [depth] and [abort] start at their zero values. *)
Definition NewEVM
  (NewInterpreter : Context -> params.ChainConfig -> Config -> Interpreter)
  (ctx : Context) (chainConfig : params.ChainConfig) (vmConfig : Config)
  : EVM :=
  mkEVM ctx 0 chainConfig vmConfig (NewInterpreter ctx chainConfig vmConfig) 0.

(** ** Counting in a log *)

Definition is_Run (e : Event) : bool :=
  match e with EvRun _ _ _ => true | _ => false end.

Definition is_ReturnGas (e : Event) : bool :=
  match e with EvReturnGas _ _ => true | _ => false end.

Definition is_Finalise (e : Event) : bool :=
  match e with EvFinalise _ => true | _ => false end.

Definition is_Snapshot (e : Event) : bool :=
  match e with EvSnapshot _ => true | _ => false end.

Definition is_Revert (e : Event) : bool :=
  match e with EvRevertToSnapshot _ => true | _ => false end.

Definition is_Transfer (e : Event) : bool :=
  match e with EvTransfer _ _ _ => true | _ => false end.

Definition is_CanTransfer (e : Event) : bool :=
  match e with EvCanTransfer _ _ _ => true | _ => false end.

Definition count (p : Event -> bool) (l : list Event) : nat :=
  length (List.filter p l).

(** The interpreter has run in the invocation with outcome [o]. *)
Definition ran {A} (o : A * StateDB * list Event) : Prop :=
  exists c i r, In (EvRun c i r) (events o).

(** * Proofs *)

#[local] Arguments statedb.SetNonce : simpl never.
#[local] Arguments statedb.SetCode : simpl never.
#[local] Arguments statedb.SetBalance : simpl never.
#[local] Arguments statedb.CreateAccount : simpl never.
#[local] Arguments statedb.RevertToSnapshot : simpl never.
#[local] Arguments statedb.GetNonce : simpl never.
#[local] Arguments statedb.GetCode : simpl never.
#[local] Arguments statedb.GetBalance : simpl never.
#[local] Arguments statedb.Exist : simpl never.
#[local] Arguments statedb.Snapshot : simpl never.
#[local] Arguments codeHash : simpl never.
#[local] Arguments UseGas : simpl never.
#[local] Arguments setGas : simpl never.
#[local] Arguments SetCallCode : simpl never.
#[local] Arguments NewContract : simpl never.
#[local] Arguments AsDelegate : simpl never.

(** ** The state view and the frame *)

Lemma keeps_revisions_refl s : keeps_revisions s s.
Proof. unfold keeps_revisions. reflexivity. Qed.

Lemma keeps_revisions_trans s1 s2 s3 :
  keeps_revisions s1 s2 -> keeps_revisions s2 s3 -> keeps_revisions s1 s3.
Proof. unfold keeps_revisions. intros H1 H2. etransitivity; eassumption. Qed.

Lemma keeps_revisions_put s a x : keeps_revisions s (statedb.put s a x).
Proof. unfold keeps_revisions. reflexivity. Qed.

Lemma keeps_revisions_CreateAccount s a :
  keeps_revisions s (statedb.CreateAccount s a).
Proof. apply keeps_revisions_put. Qed.

Lemma keeps_revisions_SetNonce s a n :
  keeps_revisions s (statedb.SetNonce s a n).
Proof. apply keeps_revisions_put. Qed.

Lemma keeps_revisions_SetCode s a c :
  keeps_revisions s (statedb.SetCode s a c).
Proof. apply keeps_revisions_put. Qed.

Lemma keeps_revisions_SetBalance s a b :
  keeps_revisions s (statedb.SetBalance s a b).
Proof. apply keeps_revisions_put. Qed.

Lemma keeps_revisions_Snapshot s : keeps_revisions s (snd (statedb.Snapshot s)).
Proof. unfold keeps_revisions. cbn. apply prefix_app_r. reflexivity. Qed.

(** Reverting to a snapshot that is still valid gives back the state in
    which it was taken. *)
Lemma revert_to_snapshot s s' :
  keeps_revisions (snd (statedb.Snapshot s)) s' ->
  statedb.RevertToSnapshot s' (fst (statedb.Snapshot s)) = s.
Proof.
  unfold keeps_revisions, statedb.Snapshot, statedb.RevertToSnapshot.
  cbn. intros [k Hk]. rewrite Hk.
  rewrite <- app_assoc.
  rewrite lookup_app_r by reflexivity.
  rewrite Nat.sub_diag. cbn.
  rewrite take_app_length. destruct s; reflexivity.
Qed.

Lemma GetNonce_SetNonce s a n : statedb.GetNonce (statedb.SetNonce s a n) a = n.
Proof.
  unfold statedb.GetNonce, statedb.SetNonce, statedb.get, statedb.put. cbn.
  rewrite lookup_insert_eq. reflexivity.
Qed.

Lemma GetCode_SetCode s a c : statedb.GetCode (statedb.SetCode s a c) a = c.
Proof.
  unfold statedb.GetCode, statedb.SetCode, statedb.get, statedb.put. cbn.
  rewrite lookup_insert_eq. reflexivity.
Qed.

Lemma UseGas_eq c g :
  UseGas c g = if c_Gas c <? g then (false, c) else (true, setGas c (c_Gas c - g)).
Proof. reflexivity. Qed.

Lemma UseGas_all c : UseGas c (c_Gas c) = (true, setGas c 0).
Proof. unfold UseGas. rewrite Z.ltb_irrefl. do 2 f_equal. lia. Qed.

Lemma c_Gas_setGas c g : c_Gas (setGas c g) = g.
Proof. reflexivity. Qed.

Lemma BitLen_zero x : (BitLen x =? 0) = true <-> x = 0.
Proof.
  unfold BitLen. destruct (Z.abs x =? 0) eqn:E.
  - split; [intros _; lia | reflexivity].
  - pose proof (Z.log2_nonneg (Z.abs x)). split; intros; lia.
Qed.

(** ** Tactics for following an entry point *)

Ltac unfold_prims :=
  unfold Bind, Return, ReturnGas, doCanTransfer, doTransfer, GetBalance,
    Snapshot, RevertToSnapshot, Exist, CreateAccount, GetAccount, GetNonce,
    SetNonce, GetCode, GetCodeHash, SetCode, Run, Finalise, reading, writing,
    logging in *.

(** Name the result of the run of the interpreter, keeping what is known
    of its state. *)
Ltac name_run :=
  match goal with
  | |- context [interpreter ?e ?c ?i ?s] =>
      let r := fresh "r0" in
      pose proof (fun Hw : well_behaved e => proj2 Hw c i s);
      set (r := interpreter e c i s) in *; clearbody r
  end.

(** One step of case analysis along the control flow. *)
Ltac case_step :=
  match goal with
  | |- context [run_err ?r] => is_var r; destruct (run_err r) eqn:?
  | |- context [if negb ?b then _ else _] => destruct b eqn:?
  | |- context [if ?b then _ else _] => destruct b eqn:?
  | |- context [match ?o with Some _ => _ | None => _ end] => destruct o eqn:?
  end.

(** The charge of gas to the frame. *)
Ltac charge_gas :=
  match goal with
  | |- context [UseGas ?c (c_Gas ?c)] => rewrite (UseGas_all c)
  | |- context [UseGas ?c ?g] => rewrite (UseGas_eq c g)
  end.

Ltac follow :=
  unfold Call, CallCode, DelegateCall, Create, no_recursion_applies,
    settled, nonce_bumped;
  unfold_prims; cbn;
  repeat (first [ name_run | charge_gas | case_step ]; cbn).

(** Case analysis on an event found in an explicit log. *)
Ltac in_log H :=
  cbn in H;
  repeat (destruct H as [H | H]; [try discriminate H | ]);
  try contradiction.

Ltac read_log :=
  repeat match goal with
    | H : In _ _ |- _ => in_log H
    | H : _ \/ _ |- _ => in_log H
    | H : False |- _ => destruct H
    end.

(** The state after a chain of operations still holds the snapshots of the
    state before it. *)
Ltac keeps :=
  repeat match goal with
    | |- keeps_revisions ?a ?a => apply keeps_revisions_refl
    | Hw : well_behaved _, H : well_behaved _ -> keeps_revisions _ ?b
      |- keeps_revisions _ ?b =>
        eapply keeps_revisions_trans; [ | exact (H Hw)]
    | Hw : well_behaved ?e
      |- keeps_revisions _ (Transfer (evm_Context ?e) _ _ _ _) =>
        eapply keeps_revisions_trans; [ | apply (proj1 Hw)]
    | |- keeps_revisions _ (statedb.CreateAccount _ _) =>
        eapply keeps_revisions_trans; [ | apply keeps_revisions_CreateAccount]
    | |- keeps_revisions _ (statedb.SetNonce _ _ _) =>
        eapply keeps_revisions_trans; [ | apply keeps_revisions_SetNonce]
    | |- keeps_revisions _ (statedb.SetCode _ _ _) =>
        eapply keeps_revisions_trans; [ | apply keeps_revisions_SetCode]
    end.

(** An event is in an explicit log, or is not. *)
Ltac log_has := cbn; repeat first [left; reflexivity | right].
Ltac log_has_not := cbn; unfold not; intros; read_log.


Ltac bools :=
  repeat match goal with
    | H : (_ >? _) = _ |- _ => rewrite Z.gtb_ltb in H
    | H : (_ <? _) = true |- _ => apply Z.ltb_lt in H
    | H : (_ <? _) = false |- _ => apply Z.ltb_ge in H
    | H : (_ =? _) = true |- _ => apply Z.eqb_eq in H
    | H : (_ =? _) = false |- _ => apply Z.eqb_neq in H
    | H : negb _ = true |- _ => apply negb_true_iff in H
    | H : negb _ = false |- _ => apply negb_false_iff in H
    | H : _ && _ = true |- _ => apply andb_true_iff in H; destruct H
    | H : _ || _ = false |- _ => apply orb_false_iff in H; destruct H
    | H : _ && _ = false |- _ => apply andb_false_iff in H; destruct H
    | H : _ || _ = true |- _ => apply orb_true_iff in H; destruct H
    | H : true = false |- _ => discriminate H
    | H : false = true |- _ => discriminate H
    | H : c_Gas (setGas _ _) < _ |- _ => rewrite c_Gas_setGas in H
    | H : _ <= c_Gas (setGas _ _) |- _ => rewrite c_Gas_setGas in H
    | H : bool_decide _ = true |- _ => apply bool_decide_eq_true in H
    | H : bool_decide _ = false |- _ => apply bool_decide_eq_false in H
    end.

(** The conclusion of [settled], once the log is explicit. *)
Ltac settle :=
  intros; read_log; simplify_eq;
  repeat match goal with H : run_err _ = _ |- _ => rewrite H end;
  unfold finalised, result, final, events; cbn; rewrite ?c_Gas_setGas;
  repeat split; eauto; try log_has_not;
  try (eexists; split; [log_has | split; [log_has | reflexivity]]);
  try (intros; apply revert_to_snapshot; keeps).

(** ** The settings of the examples are well behaved *)

Lemma exampleEVM_well_behaved d norec homestead eip158 number out err used :
  well_behaved (exampleEVM d norec homestead eip158 number (scripted out err used)).
Proof.
  split; cbn; intros.
  - unfold moveBalance. eapply keeps_revisions_trans;
      apply keeps_revisions_SetBalance.
  - eapply keeps_revisions_trans;
      [apply keeps_revisions_SetNonce | apply keeps_revisions_Snapshot].
Qed.

(** ** The scenarios of the specification *)

(** Balance 50, value 100: the call fails with [ErrInsufficientBalance],
    the target stays absent and the caller gets the gas back. *)
Example scenario_insufficient_balance :
  let evm := exampleEVM 0 false (Some 0) (Some 0) 10 (scripted hello None 50) in
  let poor := mkStateDB {[ 202 := mkAccount 50 5 [] ]} [] in
  Call (H:=exampleExternals) evm alice 303 [] 1000 100 poor
  = (([], Some ErrInsufficientBalance), poor,
     [EvCanTransfer 202 100 false; EvReturnGas alice 1000]).
Proof. reflexivity. Qed.

(** Balance 100, value 100, target absent, EIP-158 active: the value is not
    zero, so the target is created and receives 100; the caller keeps 0. *)
Example scenario_value_to_absent_target :
  let evm := exampleEVM 0 false (Some 0) (Some 0) 10 (scripted hello None 50) in
  let o := Call (H:=exampleExternals) evm alice 303 [] 1000 100 db0 in
  result o = (hello, None)
  /\ statedb.Exist (final o) 303 = true
  /\ statedb.GetBalance (final o) 303 = 100
  /\ statedb.GetBalance (final o) 202 = 0.
Proof. cbv zeta. repeat split. Qed.

(** The same call with value zero does nothing but return the gas. *)
Example scenario_zero_value_to_absent_target :
  let evm := exampleEVM 0 false (Some 0) (Some 0) 10 (scripted hello None 50) in
  let o := Call (H:=exampleExternals) evm alice 303 [] 1000 0 db0 in
  result o = ([], None)
  /\ events o
     = [EvCanTransfer 202 0 true; EvSnapshot 0; EvExist 303 false;
        EvReturnGas alice 1000]
  /\ statedb.Exist (final o) 303 = false.
Proof. cbv zeta. repeat split. Qed.

(** A trivial call at the maximum depth succeeds; one level deeper it fails
    with [ErrDepth]. *)
Example scenario_depth :
  let run := scripted [] None 0 in
  let at_max := exampleEVM 1024 false (Some 0) (Some 0) 10 run in
  let beyond := exampleEVM 1025 false (Some 0) (Some 0) 10 run in
  result (Call (H:=exampleExternals) at_max alice 202 [] 1000 0 db0)
  = ([], None)
  /\ result (Call (H:=exampleExternals) beyond alice 202 [] 1000 0 db0)
     = ([], Some ErrDepth).
Proof. cbv zeta. split; reflexivity. Qed.

(** Code longer than the limit: the address is returned, no code is
    installed and the new account is gone. *)
Example scenario_oversized_code :
  let evm := exampleEVM 0 false (Some 0) (Some 0) 10 (scripted hello None 50) in
  let o := Create (H:=tightExternals) evm alice [] 1000 10 db0 in
  result o = ([], 202 * uint64_mod + 5, Some ErrCodeStoreOutOfGas)
  /\ statedb.Exist (final o) (202 * uint64_mod + 5) = false.
Proof. cbv zeta. split; reflexivity. Qed.

(** ** Call, CallCode and DelegateCall *)

Lemma Call_settled `{Externals} evm caller addr input gas value s c i r :
  In (EvRun c i r) (events (Call evm caller addr input gas value s)) ->
  settled evm s r (Call evm caller addr input gas value s).
Proof. follow. all: settle. Qed.

Lemma CallCode_settled `{Externals} evm caller addr input gas value s c i r :
  In (EvRun c i r) (events (CallCode evm caller addr input gas value s)) ->
  settled evm s r (CallCode evm caller addr input gas value s).
Proof. follow. all: settle. Qed.

Lemma DelegateCall_settled `{Externals} evm caller addr input gas s c i r :
  In (EvRun c i r) (events (DelegateCall evm caller addr input gas s)) ->
  settled evm s r (DelegateCall evm caller addr input gas s).
Proof. follow. all: settle. Qed.

(** C3.  In every invocation of [Call], [CallCode] or [DelegateCall] that
    passes its entry checks (and, for [Call], is not the zero-value call
    that is answered without a run) the interpreter is run, on the frame
    and the state the entry point has prepared.  When it returns a fault,
    the frame is left without gas, the state is reverted to the snapshot
    taken at the start of the invocation (so the state is the one the
    invocation started in) and the fault is returned as it is, with the
    output of the interpreter; when it succeeds there is no revert and its
    output is returned as it is. *)
Theorem interpreter_outcome_settled `{Externals} evm caller addr input gas
  value s :
  no_recursion_applies evm = false ->
  depth evm <= CallCreateDepth ->
  let a := ref_Address caller in
  let snap := snd (statedb.Snapshot s) in
  let frame (c0 : Contract) (st : StateDB) : Contract :=
    SetCallCode c0 addr (codeHash st addr) (statedb.GetCode st addr) in
  let settles (o : list byte * option error * StateDB * list Event)
        (c : Contract) (st : StateDB) : Prop :=
    let r := interpreter evm c input st in
    In (EvRun c input r) (events o)
    /\ match run_err r with
       | Some msg =>
           result o = (run_ret r, Some (ExecutionFault msg))
           /\ (exists c', finalised o = Some c' /\ c_Gas c' = 0)
           /\ (exists id,
                 In (EvSnapshot id) (events o)
                 /\ In (EvRevertToSnapshot id) (events o)
                 /\ final o = statedb.RevertToSnapshot (run_db r) id)
           /\ (well_behaved evm -> final o = s)
       | None =>
           result o = (run_ret r, None)
           /\ (forall id, ~ In (EvRevertToSnapshot id) (events o))
           /\ final o = run_db r
       end in
  (CanTransfer (evm_Context evm) s a value = true ->
   statedb.Exist s addr = true
   \/ ~ (PrecompiledContracts !! addr = None
         /\ params.IsEIP158 (ChainConfig evm) (BlockNumber (evm_Context evm))
            = true
         /\ value = 0) ->
   let st := Transfer (evm_Context evm)
               (if statedb.Exist s addr then snap
                else statedb.CreateAccount snap addr) a addr value in
   settles (Call evm caller addr input gas value s)
     (frame (NewContract caller addr value gas) st) st)
  /\ (CanTransfer (evm_Context evm) s a value = true ->
      settles (CallCode evm caller addr input gas value s)
        (frame (NewContract caller a value gas) snap) snap)
  /\ settles (DelegateCall evm caller addr input gas s)
       (frame (AsDelegate (NewContract caller a (ref_Value caller) gas)) snap)
       snap.
Proof.
  intros Hnr Hd a snap frame settles.
  unfold no_recursion_applies in Hnr.
  assert (Hle : (depth evm >? CallCreateDepth) = false).
  { rewrite Z.gtb_ltb. apply Z.ltb_ge. lia. }
  assert (Hset : forall o c st,
             In (EvRun c input (interpreter evm c input st)) (events o) ->
             settled evm s (interpreter evm c input st) o ->
             settles o c st).
  { intros o c st Hin Hs. split; [exact Hin | exact Hs]. }
  subst a snap frame. split; [ | split].
  - intros Hct Hgo st.
    match goal with |- settles ?o ?c ?st' =>
      assert (Hin : In (EvRun c input (interpreter evm c input st')) (events o))
    end.
    { subst st. unfold Call. rewrite Hnr, Hle. unfold_prims. cbn.
      rewrite Hct. cbn.
      change (statedb.Exist (snd (statedb.Snapshot s)) addr)
        with (statedb.Exist s addr).
      destruct (statedb.Exist s addr) eqn:Hex; cbn.
      - case_step; cbn; log_has.
      - destruct (bool_decide (PrecompiledContracts !! addr = None)
                  && params.IsEIP158 (ChainConfig evm)
                       (BlockNumber (evm_Context evm))
                  && (BitLen value =? 0)) eqn:Hc; cbn.
        + exfalso. destruct Hgo as [Hgo | Hgo]; [discriminate Hgo | ].
          apply Hgo.
          apply andb_true_iff in Hc as [Hc Hv].
          apply andb_true_iff in Hc as [Hp He].
          apply bool_decide_eq_true in Hp. apply BitLen_zero in Hv. auto.
        + case_step; cbn; log_has. }
    apply Hset; [exact Hin | exact (Call_settled _ _ _ _ _ _ _ _ _ _ Hin)].
  - intros Hct.
    match goal with |- settles ?o ?c ?st' =>
      assert (Hin : In (EvRun c input (interpreter evm c input st')) (events o))
    end.
    { unfold CallCode. rewrite Hnr, Hle. unfold_prims. cbn.
      rewrite Hct. cbn. case_step; cbn; log_has. }
    apply Hset; [exact Hin | exact (CallCode_settled _ _ _ _ _ _ _ _ _ _ Hin)].
  - match goal with |- settles ?o ?c ?st' =>
      assert (Hin : In (EvRun c input (interpreter evm c input st')) (events o))
    end.
    { unfold DelegateCall. rewrite Hnr, Hle. unfold_prims. cbn.
      case_step; cbn; log_has. }
    apply Hset;
      [exact Hin | exact (DelegateCall_settled _ _ _ _ _ _ _ _ _ Hin)].
Qed.

Lemma interpreter_outcome_settled_witness :
  let evmF := exampleEVM 0 false (Some 0) (Some 0) 10
                (scripted hello (Some "invalid opcode"%string) 50) in
  let fault := Some (ExecutionFault "invalid opcode") in
  let o1 := Call (H:=exampleExternals) evmF alice 303 [] 1000 10 db0 in
  let o2 := CallCode (H:=exampleExternals) evmF alice 303 [] 1000 10 db0 in
  let o3 := DelegateCall (H:=exampleExternals) evmF alice 303 [] 1000 db0 in
  (result o1 = (hello, fault)
   /\ (exists c', finalised o1 = Some c' /\ c_Gas c' = 0)
   /\ final o1 = db0)
  /\ (result o2 = (hello, fault)
      /\ (exists c', finalised o2 = Some c' /\ c_Gas c' = 0)
      /\ final o2 = db0)
  /\ (result o3 = (hello, fault)
      /\ (exists c', finalised o3 = Some c' /\ c_Gas c' = 0)
      /\ final o3 = db0).
Proof.
  intros evmF fault o1 o2 o3.
  assert (Hd : depth evmF <= CallCreateDepth (Externals:=exampleExternals))
    by (cbn; lia).
  destruct (interpreter_outcome_settled (H:=exampleExternals) evmF alice 303
              [] 1000 10 db0 eq_refl Hd) as (H1 & H2 & H3).
  assert (Hgo : statedb.Exist db0 303 = true
                \/ ~ (PrecompiledContracts (Externals:=exampleExternals) !! 303
                      = None
                      /\ params.IsEIP158 (ChainConfig evmF)
                           (BlockNumber (evm_Context evmF)) = true
                      /\ 10 = 0)).
  { right. intros (_ & _ & Hv). discriminate Hv. }
  specialize (H1 eq_refl Hgo). specialize (H2 eq_refl).
  destruct H1 as [_ H1]. destruct H2 as [_ H2]. destruct H3 as [_ H3].
  cbn in H1, H2, H3.
  destruct H1 as (R1 & G1 & _ & F1).
  destruct H2 as (R2 & G2 & _ & F2).
  destruct H3 as (R3 & G3 & _ & F3).
  pose proof (exampleEVM_well_behaved 0 false (Some 0) (Some 0) 10 hello
                (Some "invalid opcode"%string) 50) as Hwb.
  repeat split; auto.
Defined.

(** C4.  The depth check comes second, after the no-recursion check.  An
    invocation of [Call], [CallCode], [DelegateCall] or [Create] that
    reaches it above the maximum depth fails with [ErrDepth], returns the
    gas to the caller and does nothing else: the state is the one it
    started in, with no snapshot taken.  At the maximum depth itself the
    invocation goes on to its next step and does not fail with
    [ErrDepth]. *)
Theorem depth_check `{Externals} evm caller addr input code gas value s :
  no_recursion_applies evm = false ->
  (depth evm > CallCreateDepth ->
     Call evm caller addr input gas value s
       = (([], Some ErrDepth), s, [EvReturnGas caller gas])
     /\ CallCode evm caller addr input gas value s
       = (([], Some ErrDepth), s, [EvReturnGas caller gas])
     /\ DelegateCall evm caller addr input gas s
       = (([], Some ErrDepth), s, [EvReturnGas caller gas])
     /\ Create evm caller code gas value s
       = (([], zeroAddress, Some ErrDepth), s, [EvReturnGas caller gas]))
  /\ (depth evm = CallCreateDepth ->
     let asked := EvCanTransfer (ref_Address caller) value
                    (CanTransfer (evm_Context evm) s (ref_Address caller) value) in
     (head (events (Call evm caller addr input gas value s)) = Some asked
      /\ snd (result (Call evm caller addr input gas value s)) <> Some ErrDepth)
     /\ (head (events (CallCode evm caller addr input gas value s)) = Some asked
      /\ snd (result (CallCode evm caller addr input gas value s))
           <> Some ErrDepth)
     /\ (head (events (DelegateCall evm caller addr input gas s))
           = Some (EvSnapshot (fst (statedb.Snapshot s)))
      /\ snd (result (DelegateCall evm caller addr input gas s))
           <> Some ErrDepth)
     /\ (head (events (Create evm caller code gas value s)) = Some asked
      /\ snd (result (Create evm caller code gas value s)) <> Some ErrDepth)).
Proof.
  intros Hnr. unfold no_recursion_applies in Hnr. split.
  - intros Hd. apply Z.gt_lt, Z.ltb_lt in Hd. rewrite <- Z.gtb_ltb in Hd.
    unfold Call, CallCode, DelegateCall, Create. rewrite Hnr, Hd.
    repeat split.
  - intros Hd asked.
    assert (Hle : (depth evm >? CallCreateDepth) = false).
    { rewrite Z.gtb_ltb. apply Z.ltb_ge. lia. }
    clear Hd. subst asked. repeat split.
    all: revert Hnr Hle; follow.
    all: intros; unfold result; cbn; congruence.
Qed.

Lemma depth_check_witness :
  let run := scripted hello None 50 in
  let deep := exampleEVM 1025 false (Some 0) (Some 0) 10 run in
  let full := exampleEVM 1024 false (Some 0) (Some 0) 10 run in
  let back := [EvReturnGas alice 1000] in
  (Call (H:=exampleExternals) deep alice 303 [] 1000 0 db0
     = (([], Some ErrDepth), db0, back)
   /\ CallCode (H:=exampleExternals) deep alice 303 [] 1000 0 db0
     = (([], Some ErrDepth), db0, back)
   /\ DelegateCall (H:=exampleExternals) deep alice 303 [] 1000 db0
     = (([], Some ErrDepth), db0, back)
   /\ Create (H:=exampleExternals) deep alice [] 1000 0 db0
     = (([], zeroAddress, Some ErrDepth), db0, back))
  /\ snd (result (Call (H:=exampleExternals) full alice 303 [] 1000 0 db0))
     <> Some ErrDepth
  /\ snd (result (CallCode (H:=exampleExternals) full alice 303 [] 1000 0 db0))
     <> Some ErrDepth
  /\ snd (result (DelegateCall (H:=exampleExternals) full alice 303 [] 1000
                    db0))
     <> Some ErrDepth
  /\ snd (result (Create (H:=exampleExternals) full alice [] 1000 0 db0))
     <> Some ErrDepth.
Proof.
  intros run deep full back. split.
  - apply (proj1 (depth_check (H:=exampleExternals) deep alice 303 [] [] 1000
                    0 db0 eq_refl)).
    reflexivity.
  - destruct (proj2 (depth_check (H:=exampleExternals) full alice 303 [] []
                       1000 0 db0 eq_refl) eq_refl)
      as ((_ & H1) & (_ & H2) & (_ & H3) & (_ & H4)).
    split; [exact H1 | split; [exact H2 | split; [exact H3 | exact H4]]].
Defined.

(** C8.  In every [Call] in which the transfer-permission callback rejects
    the transfer, [Call] fails with [ErrInsufficientBalance] and returns the
    gas to the caller; asking the callback and returning the gas is all it
    does: no existence check, no account creation, no transfer and no
    snapshot, and the state is the one it started in. *)
Theorem transfer_denied `{Externals} evm caller addr input gas value s a v :
  let o := Call evm caller addr input gas value s in
  In (EvCanTransfer a v false) (events o) ->
  o = (([], Some ErrInsufficientBalance), s,
       [EvCanTransfer (ref_Address caller) value false;
        EvReturnGas caller gas])
  /\ (forall x b, ~ In (EvExist x b) (events o))
  /\ (forall x, ~ In (EvCreateAccount x) (events o))
  /\ (forall x y z, ~ In (EvTransfer x y z) (events o))
  /\ (forall id, ~ In (EvSnapshot id) (events o))
  /\ final o = s.
Proof.
  cbv zeta. follow.
  all: intros; read_log; simplify_eq.
  all: try congruence.
  match goal with H : _ = false |- _ => rewrite ?H end.
  repeat split; log_has_not.
Qed.

Lemma transfer_denied_witness :
  let evm := exampleEVM 0 false (Some 0) (Some 0) 10 (scripted hello None 50) in
  let o := Call (H:=exampleExternals) evm alice 303 [] 1000 150 db0 in
  o = (([], Some ErrInsufficientBalance), db0,
       [EvCanTransfer 202 150 false; EvReturnGas alice 1000])
  /\ statedb.Exist (final o) 303 = false.
Proof.
  intros evm o.
  assert (Hin : In (EvCanTransfer 202 150 false) (events o)).
  { vm_compute. left. reflexivity. }
  destruct (transfer_denied (H:=exampleExternals) evm alice 303 [] 1000 150
              db0 202 150 Hin) as (Ho & _ & _ & _ & _ & Hs).
  split; [exact Ho | ]. unfold o in *. rewrite Hs. reflexivity.
Defined.




(** C10.  [DelegateCall] never asks the transfer-permission callback and
    never transfers value.  Its outcome is the no-recursion answer, or
    [ErrDepth], or the outcome of the interpreter; it is never
    [ErrInsufficientBalance] (nor the insufficient-funds error of
    [CallCode]).  The frame it runs targets the account of the caller,
    carries the value of the caller and is marked as delegate. *)
Theorem DelegateCall_outcomes `{Externals} evm caller addr input gas s :
  let o := DelegateCall evm caller addr input gas s in
  (forall a v ok, ~ In (EvCanTransfer a v ok) (events o))
  /\ (forall from to v, ~ In (EvTransfer from to v) (events o))
  /\ ((no_recursion_applies evm = true
       /\ o = (([], None), s, [EvReturnGas caller gas]))
      \/ o = (([], Some ErrDepth), s, [EvReturnGas caller gas])
      \/ (exists c r,
            In (EvRun c input r) (events o)
            /\ result o = (run_ret r, ExecutionFault <$> run_err r)))
  /\ snd (result o) <> Some ErrInsufficientBalance
  /\ (forall req has, snd (result o) <> Some (ErrInsufficientFunds req has))
  /\ (forall c i r, In (EvRun c i r) (events o) ->
        c_self c = ref_Address caller
        /\ c_value c = ref_Value caller
        /\ c_DelegateCall c = true).
Proof.
  cbv zeta. follow.
  all: unfold result, events; cbn.
  all: repeat split; try log_has_not; try discriminate.
  all: try (intros; read_log; simplify_eq; reflexivity).
  all: try (left; split; reflexivity).
  all: try (right; left; reflexivity).
  all: right; right; do 2 eexists; split; [log_has | ];
    match goal with H : run_err _ = _ |- _ => rewrite H end; reflexivity.
Qed.

Lemma DelegateCall_outcomes_witness :
  let evm := exampleEVM 1 false (Some 0) (Some 0) 10 (scripted hello None 50) in
  let o := DelegateCall (H:=exampleExternals) evm alice 303 [] 1000 db0 in
  result o = (hello, None)
  /\ exists c r,
       In (EvRun c [] r) (events o)
       /\ c_self c = 202 /\ c_value c = 0 /\ c_DelegateCall c = true.
Proof.
  intros evm o.
  destruct (DelegateCall_outcomes (H:=exampleExternals) evm alice 303 [] 1000
              db0) as (_ & _ & Hout & _ & _ & Hframe).
  destruct Hout as [[Hnr _] | [Hd | (c & r & Hin & Hres)]].
  - discriminate Hnr.
  - apply (f_equal snd) in Hd. vm_compute in Hd. discriminate Hd.
  - destruct (Hframe c [] r Hin) as (Hself & Hvalue & Hdel).
    split.
    + vm_compute. reflexivity.
    + exists c, r. auto.
Defined.

(** ** Create *)

(** C5.  Whenever the init code returns more code than [MaxCodeSize],
    whatever the chain configuration: [Create] returns no output, the
    derived contract address and an error; it installs no code, leaves the
    frame without gas and reverts to its snapshot, so that the state is the
    one in which the snapshot was taken. *)
Theorem oversized_code_reverts `{Externals} evm caller code gas value s c i r :
  let o := Create evm caller code gas value s in
  In (EvRun c i r) (events o) ->
  Z.of_nat (length (run_ret r)) > MaxCodeSize ->
  result o
  = ([], CreateAddress (ref_Address caller)
           (statedb.GetNonce s (ref_Address caller)),
     Some (match run_err r with
           | Some msg => ExecutionFault msg
           | None => ErrCodeStoreOutOfGas
           end))
  /\ (forall a installed, ~ In (EvSetCode a installed) (events o))
  /\ (exists c', finalised o = Some c' /\ c_Gas c' = 0)
  /\ (exists id,
        In (EvSnapshot id) (events o)
        /\ In (EvRevertToSnapshot id) (events o)
        /\ final o = statedb.RevertToSnapshot (run_db r) id)
  /\ (well_behaved evm -> final o = nonce_bumped s caller).
Proof.
  cbv zeta. follow.
  all: intros; read_log; simplify_eq; bools; try lia.
  all: repeat match goal with H : run_err _ = _ |- _ => rewrite H end.
  all: unfold finalised, result, final, events; cbn; rewrite ?c_Gas_setGas.
  all: repeat split; eauto; try log_has_not.
  all: try (eexists; split; [log_has | split; [log_has | reflexivity]]).
  all: try (intros; apply revert_to_snapshot; keeps).
Qed.

Lemma oversized_code_reverts_witness :
  let evm := exampleEVM 0 false (Some 0) (Some 0) 10 (scripted hello None 50) in
  let o := Create (H:=tightExternals) evm alice [] 1000 10 db0 in
  result o = ([], 202 * uint64_mod + 5, Some ErrCodeStoreOutOfGas)
  /\ final o = nonce_bumped db0 alice
  /\ statedb.GetCode (final o) (202 * uint64_mod + 5) = [].
Proof.
  intros evm o.
  pose (a := 202 * uint64_mod + 5).
  pose (s1 := moveBalance
                (statedb.SetNonce
                   (statedb.CreateAccount
                      (snd (statedb.Snapshot (nonce_bumped db0 alice))) a) a 1)
                202 a 10).
  pose (c0 := SetCallCode (NewContract alice a 10 1000) a
                (Keccak256Hash (Externals:=tightExternals) []) []).
  assert (Hin : In (EvRun c0 [] (interpreter evm c0 [] s1)) (events o)).
  { vm_compute. do 7 right. left. reflexivity. }
  destruct (oversized_code_reverts (H:=tightExternals) evm alice [] 1000
              10 db0 c0 [] _ Hin)
    as (Hres & _ & _ & _ & Hfin).
  { vm_compute. reflexivity. }
  specialize (Hfin (exampleEVM_well_behaved _ _ _ _ _ _ _ _)).
  split; [exact Hres | split; [exact Hfin | ]].
  unfold o in *. rewrite Hfin. reflexivity.
Defined.

(** The two ways a failure to pay for the code ends, by the Homestead
    rule. *)
Lemma Create_unpaid_code `{Externals} evm caller code gas value s
  c i r :
  let o := Create evm caller code gas value s in
  In (EvRun c i r) (events o) ->
  run_err r = None ->
  Z.of_nat (length (run_ret r)) <= MaxCodeSize ->
  run_Gas r < Z.of_nat (length (run_ret r)) * CreateDataGas ->
  result o
  = ([], CreateAddress (ref_Address caller)
           (statedb.GetNonce s (ref_Address caller)),
     Some ErrCodeStoreOutOfGas)
  /\ (forall a installed, ~ In (EvSetCode a installed) (events o))
  /\ (params.IsHomestead (ChainConfig evm) (BlockNumber (evm_Context evm))
      = false ->
        final o = run_db r
        /\ In (EvCreateAccount
                 (CreateAddress (ref_Address caller)
                    (statedb.GetNonce s (ref_Address caller)))) (events o)
        /\ (forall id, ~ In (EvRevertToSnapshot id) (events o))
        /\ (exists c', finalised o = Some c' /\ c_Gas c' = run_Gas r))
  /\ (params.IsHomestead (ChainConfig evm) (BlockNumber (evm_Context evm))
      = true ->
        (exists c', finalised o = Some c' /\ c_Gas c' = 0)
        /\ (exists id,
              In (EvSnapshot id) (events o)
              /\ In (EvRevertToSnapshot id) (events o)
              /\ final o = statedb.RevertToSnapshot (run_db r) id)
        /\ (well_behaved evm -> final o = nonce_bumped s caller)).
Proof.
  cbv zeta. follow.
  all: intros; read_log; simplify_eq; bools; try lia; try congruence.
  all: unfold finalised, result, final, events; cbn; rewrite ?c_Gas_setGas.
  all: repeat split; eauto; try log_has_not; try congruence; try log_has.
  all: try (eexists; split; [log_has | split; [log_has | reflexivity]]).
  all: apply revert_to_snapshot; keeps.
Qed.

Lemma isForked_true rule num :
  params.isForked rule num = true <-> exists b, rule = Some b /\ b <= num.
Proof.
  unfold params.isForked. destruct rule as [b | ].
  - rewrite Z.leb_le. split; [eauto | intros (b' & [= <-] & Hle); exact Hle].
  - split; [discriminate | intros (b' & [=] & _)].
Qed.

(** C6.  When installing the code fails only because the frame cannot pay
    for it, [Create] returns [ErrCodeStoreOutOfGas] and installs no code.
    Before the activation block of Homestead the failure is tolerated: the
    state is the one the interpreter left, with the account that was
    created for the contract, nothing is reverted and the gas of the frame
    is kept.  From the activation block on the frame is left
    without gas and the state is reverted to the snapshot. *)
Theorem code_store_out_of_gas `{Externals} evm caller code gas value s c i r b :
  let o := Create evm caller code gas value s in
  let number := BlockNumber (evm_Context evm) in
  params.HomesteadBlock (ChainConfig evm) = Some b ->
  In (EvRun c i r) (events o) ->
  run_err r = None ->
  Z.of_nat (length (run_ret r)) <= MaxCodeSize ->
  run_Gas r < Z.of_nat (length (run_ret r)) * CreateDataGas ->
  result o
  = ([], CreateAddress (ref_Address caller)
           (statedb.GetNonce s (ref_Address caller)),
     Some ErrCodeStoreOutOfGas)
  /\ (forall a installed, ~ In (EvSetCode a installed) (events o))
  /\ (number < b ->
        final o = run_db r
        /\ In (EvCreateAccount
                 (CreateAddress (ref_Address caller)
                    (statedb.GetNonce s (ref_Address caller)))) (events o)
        /\ (forall id, ~ In (EvRevertToSnapshot id) (events o))
        /\ (exists c', finalised o = Some c' /\ c_Gas c' = run_Gas r))
  /\ (b <= number ->
        (exists c', finalised o = Some c' /\ c_Gas c' = 0)
        /\ (exists id,
              In (EvSnapshot id) (events o)
              /\ In (EvRevertToSnapshot id) (events o)
              /\ final o = statedb.RevertToSnapshot (run_db r) id)
        /\ (well_behaved evm -> final o = nonce_bumped s caller)).
Proof.
  intros o number Hb Hin Herr Hsize Hgas.
  destruct (Create_unpaid_code evm caller code gas value s c i r
              Hin Herr Hsize Hgas) as (Hres & Hcode & Hold & Hnew).
  split; [exact Hres | split; [exact Hcode | split]].
  - intros Hlt. apply Hold. unfold params.IsHomestead.
    destruct (params.isForked _ _) eqn:E; [ | reflexivity].
    apply isForked_true in E. destruct E as (b' & Hb' & Hle).
    rewrite Hb in Hb'. injection Hb' as <-. unfold number in Hlt. lia.
  - intros Hle. apply Hnew. apply isForked_true. eauto.
Qed.

Lemma code_store_out_of_gas_witness :
  let run := scripted hello None 50 in
  let before := exampleEVM 0 false (Some 100) None 10 run in
  let after := exampleEVM 0 false (Some 5) None 10 run in
  let a := 202 * uint64_mod + 5 in
  let o := Create (H:=exampleExternals) before alice [] 300 10 db0 in
  let o' := Create (H:=exampleExternals) after alice [] 300 10 db0 in
  (result o = ([], a, Some ErrCodeStoreOutOfGas)
   /\ statedb.Exist (final o) a = true
   /\ statedb.GetCode (final o) a = []
   /\ statedb.GetBalance (final o) a = 10)
  /\ (result o' = ([], a, Some ErrCodeStoreOutOfGas)
      /\ final o' = nonce_bumped db0 alice
      /\ statedb.Exist (final o') a = false).
Proof.
  intros run before after a o o'.
  pose (s1 := moveBalance
                (statedb.CreateAccount
                   (snd (statedb.Snapshot (nonce_bumped db0 alice))) a)
                202 a 10).
  pose (c0 := SetCallCode (NewContract alice a 10 300) a
                (Keccak256Hash (Externals:=exampleExternals) []) []).
  assert (Hin : In (EvRun c0 [] (run c0 [] s1)) (events o)).
  { vm_compute. repeat first [left; reflexivity | right]. }
  assert (Hin' : In (EvRun c0 [] (run c0 [] s1)) (events o')).
  { vm_compute. repeat first [left; reflexivity | right]. }
  split.
  - destruct (code_store_out_of_gas (H:=exampleExternals) before alice [] 300
                10 db0 c0 [] _ 100 eq_refl Hin eq_refl)
      as (Hres & _ & Hold & _).
    { vm_compute. discriminate. }
    { reflexivity. }
    destruct (Hold eq_refl) as (Hfin & _ & _ & _).
    split; [exact Hres | ]. unfold o in *. rewrite Hfin.
    repeat split.
  - destruct (code_store_out_of_gas (H:=exampleExternals) after alice [] 300
                10 db0 c0 [] _ 5 eq_refl Hin' eq_refl)
      as (Hres & _ & _ & Hnew).
    { vm_compute. discriminate. }
    { reflexivity. }
    destruct Hnew as (_ & _ & Hfin); [vm_compute; discriminate | ].
    specialize (Hfin (exampleEVM_well_behaved _ _ _ _ _ _ _ _)).
    split; [exact Hres | ]. unfold o' in *. rewrite Hfin.
    repeat split.
Defined.

(** C1, as stated, does not hold: a creation that fails in the interpreter
    reverts to its snapshot, and the nonce of the caller, [5] before the
    call, is [6] after it. *)
Lemma Create_revert_leaves_nonce_incremented :
  let evm := exampleEVM 0 false (Some 0) (Some 0) 10
               (scripted hello (Some "invalid opcode"%string) 50) in
  let o := Create (H:=exampleExternals) evm alice [] 1000 10 db0 in
  snd (result o) = Some (ExecutionFault "invalid opcode")
  /\ In (EvRevertToSnapshot 0) (events o)
  /\ statedb.GetNonce db0 202 = 5
  /\ statedb.GetNonce (final o) 202 = 6
  /\ statedb.GetBalance (final o) 202 = 100.
Proof.
  cbv zeta. repeat split.
  vm_compute. repeat first [left; reflexivity | right].
Qed.

(** C1, amended.  [Create] reads the nonce of the caller, increments it
    and stores it before it takes its snapshot.  Whenever the creation then
    reverts, the state is the one in which the snapshot was taken: the
    state [Create] started in with the nonce of the caller incremented.
    The increment is kept; everything after the snapshot is undone. *)
Theorem Create_revert_keeps_nonce `{Externals} evm caller code gas value s id :
  well_behaved evm ->
  let o := Create evm caller code gas value s in
  let a := ref_Address caller in
  let n := statedb.GetNonce s a in
  In (EvRevertToSnapshot id) (events o) ->
  (exists rest,
     events o
     = [EvCanTransfer a value true; EvGetNonce a n;
        EvSetNonce a (uint64_add n 1); EvSnapshot id] ++ rest)
  /\ final o = nonce_bumped s caller
  /\ statedb.GetNonce (final o) a = uint64_add n 1.
Proof.
  intros Hwb. cbv zeta. follow.
  all: intros; read_log; simplify_eq.
  all: unfold final, events; cbn.
  all: repeat split; try (eexists; reflexivity);
    try (apply revert_to_snapshot; keeps).
  all: rewrite revert_to_snapshot by keeps; apply GetNonce_SetNonce.
Qed.

Lemma Create_revert_keeps_nonce_witness :
  let evm := exampleEVM 0 false (Some 0) (Some 0) 10
               (scripted hello (Some "invalid opcode"%string) 50) in
  let o := Create (H:=exampleExternals) evm alice [] 1000 10 db0 in
  final o = nonce_bumped db0 alice
  /\ statedb.GetNonce (final o) 202 = uint64_add 5 1.
Proof.
  intros evm o.
  assert (Hin : In (EvRevertToSnapshot 0) (events o)).
  { vm_compute. repeat first [left; reflexivity | right]. }
  destruct (Create_revert_keeps_nonce (H:=exampleExternals) evm alice [] 1000
              10 db0 0 (exampleEVM_well_behaved _ _ _ _ _ _ _ _) Hin)
    as (_ & Hfin & Hnonce).
  split; [exact Hfin | exact Hnonce].
Defined.

(** C2, as stated, does not hold: a successful creation returns the code
    it has installed, here the two bytes of [hello], not an empty output. *)
Lemma Create_success_returns_installed_code :
  let evm := exampleEVM 0 false (Some 0) (Some 0) 10 (scripted hello None 50) in
  let o := Create (H:=exampleExternals) evm alice [] 1000 10 db0 in
  let a := 202 * uint64_mod + 5 in
  result o = (hello, a, None)
  /\ statedb.GetCode (final o) a = hello
  /\ fst (fst (result o)) <> [].
Proof. cbv zeta. repeat split. discriminate. Qed.

(** C2, amended.  When the interpreter succeeds, the code is within the
    maximum size and the frame pays for it, [Create] installs the output of
    the interpreter as the code of the new account and returns that same
    output, with the contract address and no error.  The output is cleared
    whenever [Create] returns an error. *)
Theorem Create_output `{Externals} evm caller code gas value s :
  let o := Create evm caller code gas value s in
  let a := CreateAddress (ref_Address caller)
             (statedb.GetNonce s (ref_Address caller)) in
  (forall c i r,
     In (EvRun c i r) (events o) ->
     run_err r = None ->
     Z.of_nat (length (run_ret r)) <= MaxCodeSize ->
     Z.of_nat (length (run_ret r)) * CreateDataGas <= run_Gas r ->
     result o = (run_ret r, a, None)
     /\ In (EvSetCode a (run_ret r)) (events o)
     /\ final o = statedb.SetCode (run_db r) a (run_ret r)
     /\ statedb.GetCode (final o) a = run_ret r)
  /\ (snd (result o) <> None -> fst (fst (result o)) = []).
Proof.
  cbv zeta. follow.
  all: unfold result, final, events; cbn.
  all: split; [ | try reflexivity; try congruence].
  all: intros; read_log; simplify_eq; bools; try lia; try congruence.
  all: repeat split; try log_has; try apply GetCode_SetCode.
Qed.

Lemma Create_output_witness :
  let evm := exampleEVM 0 false (Some 0) (Some 0) 10 (scripted hello None 50) in
  let failing := exampleEVM 0 false (Some 0) (Some 0) 10
                   (scripted hello (Some "invalid opcode"%string) 50) in
  let o := Create (H:=exampleExternals) evm alice [] 1000 10 db0 in
  let o' := Create (H:=exampleExternals) failing alice [] 1000 10 db0 in
  let a := 202 * uint64_mod + 5 in
  (result o = (hello, a, None) /\ statedb.GetCode (final o) a = hello)
  /\ fst (fst (result o')) = [].
Proof.
  intros evm failing o o' a.
  pose (s1 := moveBalance
                (statedb.SetNonce
                   (statedb.CreateAccount
                      (snd (statedb.Snapshot (nonce_bumped db0 alice))) a) a 1)
                202 a 10).
  pose (c0 := SetCallCode (NewContract alice a 10 1000) a
                (Keccak256Hash (Externals:=exampleExternals) []) []).
  split.
  - assert (Hin : In (EvRun c0 [] (interpreter evm c0 [] s1)) (events o)).
    { vm_compute. repeat first [left; reflexivity | right]. }
    destruct (proj1 (Create_output (H:=exampleExternals) evm alice [] 1000 10
                       db0) c0 [] _ Hin eq_refl)
      as (Hres & _ & _ & Hcode).
    { vm_compute. discriminate. }
    { vm_compute. discriminate. }
    split; [exact Hres | exact Hcode].
  - apply (proj2 (Create_output (H:=exampleExternals) failing alice [] 1000 10
                    db0)).
    vm_compute. discriminate.
Defined.

(** ** The contract address *)

(** C9.  The address [Create] returns is derived from the address of the
    caller and the nonce read before the increment, and from nothing else:
    two creations by the same creator derive the same address when they
    read the same nonce, and, the derivation being injective in the nonce,
    different addresses when they read different nonces. *)
Theorem Create_address_deterministic `{Externals} evm1 evm2 caller1 caller2
  code1 code2 gas1 gas2 value1 value2 s1 s2 n1 n2 :
  nonce_injective ->
  let o1 := Create evm1 caller1 code1 gas1 value1 s1 in
  let o2 := Create evm2 caller2 code2 gas2 value2 s2 in
  ref_Address caller1 = ref_Address caller2 ->
  In (EvGetNonce (ref_Address caller1) n1) (events o1) ->
  In (EvGetNonce (ref_Address caller2) n2) (events o2) ->
  0 <= n1 < uint64_mod ->
  0 <= n2 < uint64_mod ->
  n1 = statedb.GetNonce s1 (ref_Address caller1)
  /\ n2 = statedb.GetNonce s2 (ref_Address caller2)
  /\ snd (fst (result o1)) = CreateAddress (ref_Address caller1) n1
  /\ snd (fst (result o2)) = CreateAddress (ref_Address caller2) n2
  /\ (n1 = n2 -> snd (fst (result o1)) = snd (fst (result o2)))
  /\ (n1 <> n2 -> snd (fst (result o1)) <> snd (fst (result o2))).
Proof.
  intros Hinj o1 o2 Hsame Hin1 Hin2 Hr1 Hr2.
  assert (Hone : forall evm caller code gas value s n,
             In (EvGetNonce (ref_Address caller) n)
               (events (Create evm caller code gas value s)) ->
             n = statedb.GetNonce s (ref_Address caller)
             /\ snd (fst (result (Create evm caller code gas value s)))
                = CreateAddress (ref_Address caller) n).
  { clear. intros evm caller code gas value s n. follow.
    all: intros; read_log; simplify_eq; split; reflexivity. }
  destruct (Hone _ _ _ _ _ _ _ Hin1) as [E1 A1].
  destruct (Hone _ _ _ _ _ _ _ Hin2) as [E2 A2].
  fold o1 in A1. fold o2 in A2.
  repeat split; try assumption.
  - intros ->. rewrite A1, A2, Hsame. reflexivity.
  - intros Hne Heq. apply Hne. rewrite A1, A2, Hsame in Heq.
    exact (Hinj _ _ _ Hr1 Hr2 Heq).
Qed.

Lemma externalsWith_nonce_injective m : nonce_injective (H:=externalsWith m).
Proof. intros creator n1 n2 _ _. cbn. lia. Qed.

Lemma Create_address_deterministic_witness :
  let evm := exampleEVM 0 false (Some 0) (Some 0) 10 (scripted hello None 50) in
  let o1 := Create (H:=exampleExternals) evm alice [] 1000 10 db0 in
  let o2 := Create (H:=exampleExternals) evm alice [] 1000 10 (final o1) in
  snd (fst (result o1)) = 202 * uint64_mod + 5
  /\ snd (fst (result o1)) <> snd (fst (result o2)).
Proof.
  intros evm o1 o2.
  assert (Hin1 : In (EvGetNonce 202 5) (events o1)).
  { vm_compute. repeat first [left; reflexivity | right]. }
  assert (Hin2 : In (EvGetNonce 202 6) (events o2)).
  { vm_compute. repeat first [left; reflexivity | right]. }
  destruct (Create_address_deterministic (H:=exampleExternals) evm evm alice
              alice [] [] 1000 1000 10 10 db0 (final o1) 5 6
              (externalsWith_nonce_injective _) eq_refl Hin1 Hin2)
    as (_ & _ & Ha & _ & _ & Hdiff).
  { unfold uint64_mod. lia. }
  { unfold uint64_mod. lia. }
  split; [exact Ha | apply Hdiff; discriminate].
Defined.

(** * Further properties of the dispatcher *)

(** ** The entry checks *)

(** X1.  In no-recursion mode every nested invocation of [Call],
    [CallCode], [DelegateCall] or [Create] returns at once: success, no
    output (and the zero address), the gas returned to the caller, the
    state as it was, and nothing asked of the state or of the callbacks. *)
Theorem no_recursion_shortcut `{Externals} evm caller addr input code gas
  value s :
  NoRecursion (vmConfig evm) = true ->
  depth evm > 0 ->
  Call evm caller addr input gas value s
    = (([], None), s, [EvReturnGas caller gas])
  /\ CallCode evm caller addr input gas value s
    = (([], None), s, [EvReturnGas caller gas])
  /\ DelegateCall evm caller addr input gas s
    = (([], None), s, [EvReturnGas caller gas])
  /\ Create evm caller code gas value s
    = (([], zeroAddress, None), s, [EvReturnGas caller gas]).
Proof.
  intros Hnr Hd. apply Z.gt_lt, Z.ltb_lt in Hd. rewrite <- Z.gtb_ltb in Hd.
  unfold Call, CallCode, DelegateCall, Create. rewrite Hnr, Hd.
  repeat split.
Qed.

Lemma no_recursion_shortcut_witness :
  let evm := exampleEVM 1 true (Some 0) (Some 0) 10 (scripted hello None 50) in
  Create (H:=exampleExternals) evm alice [] 1000 150 db0
  = (([], zeroAddress, None), db0, [EvReturnGas alice 1000]).
Proof.
  intros evm.
  apply (no_recursion_shortcut (H:=exampleExternals) evm alice 303 [] [] 1000
           150 db0 eq_refl eq_refl).
Defined.

(** At depth zero the no-recursion and depth checks pass. *)
Lemma depth_zero_passes_entry_checks `{Externals} evm caller addr input code
  gas value s :
  depth evm = 0 ->
  0 <= CallCreateDepth ->
  let asked := EvCanTransfer (ref_Address caller) value
                 (CanTransfer (evm_Context evm) s (ref_Address caller) value) in
  (head (events (Call evm caller addr input gas value s)) = Some asked
   /\ snd (result (Call evm caller addr input gas value s)) <> Some ErrDepth)
  /\ (head (events (CallCode evm caller addr input gas value s)) = Some asked
      /\ snd (result (CallCode evm caller addr input gas value s))
         <> Some ErrDepth)
  /\ (head (events (DelegateCall evm caller addr input gas s))
        = Some (EvSnapshot (fst (statedb.Snapshot s)))
      /\ snd (result (DelegateCall evm caller addr input gas s))
         <> Some ErrDepth)
  /\ (head (events (Create evm caller code gas value s)) = Some asked
      /\ snd (result (Create evm caller code gas value s)) <> Some ErrDepth).
Proof.
  intros Hd Hmax asked. subst asked.
  assert (Hle : (depth evm >? CallCreateDepth) = false).
  { rewrite Z.gtb_ltb. apply Z.ltb_ge. lia. }
  assert (Hnr : NoRecursion (vmConfig evm) && (depth evm >? 0) = false).
  { rewrite Hd. apply andb_false_r. }
  clear Hd Hmax. repeat split.
  all: revert Hle Hnr; follow.
  all: intros; unfold result; cbn; congruence.
Qed.

(** X2.  A machine built by [NewEVM] is at depth zero, so when the maximum
    depth is not negative its first invocation passes the no-recursion and
    depth checks whatever its configuration: [Call], [CallCode] and
    [Create] go on to ask the transfer permission on the state they start
    in, [DelegateCall] goes on to take its snapshot, and none of them fails
    with [ErrDepth]. *)
Theorem NewEVM_passes_entry_checks `{Externals} mk ctx rules cfg
  caller addr input code gas value s :
  0 <= CallCreateDepth ->
  let evm := NewEVM mk ctx rules cfg in
  let asked := EvCanTransfer (ref_Address caller) value
                 (CanTransfer ctx s (ref_Address caller) value) in
  ChainConfig evm = rules
  /\ (head (events (Call evm caller addr input gas value s)) = Some asked
      /\ snd (result (Call evm caller addr input gas value s)) <> Some ErrDepth)
  /\ (head (events (CallCode evm caller addr input gas value s)) = Some asked
      /\ snd (result (CallCode evm caller addr input gas value s))
         <> Some ErrDepth)
  /\ (head (events (DelegateCall evm caller addr input gas s))
        = Some (EvSnapshot (fst (statedb.Snapshot s)))
      /\ snd (result (DelegateCall evm caller addr input gas s))
         <> Some ErrDepth)
  /\ (head (events (Create evm caller code gas value s)) = Some asked
      /\ snd (result (Create evm caller code gas value s)) <> Some ErrDepth).
Proof.
  intros Hmax evm asked. split; [reflexivity | ].
  exact (depth_zero_passes_entry_checks evm caller addr input code gas value
           s eq_refl Hmax).
Qed.

Lemma NewEVM_passes_entry_checks_witness :
  let evm := NewEVM (fun _ _ _ => scripted hello None 50)
               (evm_Context (exampleEVM 0 true None None 10
                               (scripted hello None 50)))
               (params.mkChainConfig None None) (mkConfig true) in
  snd (result (Call (H:=exampleExternals) evm alice 303 [] 1000 0 db0))
  <> Some ErrDepth.
Proof.
  intros evm.
  apply (NewEVM_passes_entry_checks (H:=exampleExternals)
           (fun _ _ _ => scripted hello None 50) _ _ _ alice 303 [] [] 1000 0
           db0).
  cbn. lia.
Defined.

(** X3.  In every [CallCode] in which the transfer-permission callback
    rejects the transfer, [CallCode] fails with the insufficient-funds
    error, which carries the value asked for and the balance of the caller
    in the state the invocation started in; the gas is returned to the
    caller, no snapshot is taken and the state is the one it started in. *)
Theorem CallCode_transfer_denied `{Externals} evm caller addr input gas value
  s a v :
  let o := CallCode evm caller addr input gas value s in
  In (EvCanTransfer a v false) (events o) ->
  o = (([], Some (ErrInsufficientFunds value
                    (statedb.GetBalance s (ref_Address caller)))), s,
       [EvCanTransfer (ref_Address caller) value false;
        EvReturnGas caller gas;
        EvGetBalance (ref_Address caller)]).
Proof.
  cbv zeta. follow.
  all: intros; read_log; simplify_eq.
  all: congruence.
Qed.

Lemma CallCode_transfer_denied_witness :
  let evm := exampleEVM 0 false (Some 0) (Some 0) 10 (scripted hello None 50) in
  CallCode (H:=exampleExternals) evm alice 303 [] 1000 150 db0
  = (([], Some (ErrInsufficientFunds 150 100)), db0,
     [EvCanTransfer 202 150 false; EvReturnGas alice 1000; EvGetBalance 202]).
Proof.
  intros evm.
  apply (CallCode_transfer_denied (H:=exampleExternals) evm alice 303 [] 1000
           150 db0 202 150).
  vm_compute. left. reflexivity.
Defined.

(** X4.  In every [Create] in which the transfer-permission callback
    rejects the transfer, [Create] fails with [ErrInsufficientBalance] and
    the zero address and returns the gas to the caller.  The nonce of the
    caller is not even read: the state, and with it that nonce, is the one
    the invocation started in. *)
Theorem Create_transfer_denied `{Externals} evm caller code gas value s a v :
  let o := Create evm caller code gas value s in
  In (EvCanTransfer a v false) (events o) ->
  o = (([], zeroAddress, Some ErrInsufficientBalance), s,
       [EvCanTransfer (ref_Address caller) value false;
        EvReturnGas caller gas])
  /\ (forall x n, ~ In (EvGetNonce x n) (events o))
  /\ (forall x n, ~ In (EvSetNonce x n) (events o))
  /\ statedb.GetNonce (final o) (ref_Address caller)
     = statedb.GetNonce s (ref_Address caller).
Proof.
  cbv zeta. follow.
  all: intros; read_log; simplify_eq.
  all: try congruence.
  match goal with H : _ = false |- _ => rewrite ?H end.
  repeat split; log_has_not.
Qed.

Lemma Create_transfer_denied_witness :
  let evm := exampleEVM 0 false (Some 0) (Some 0) 10 (scripted hello None 50) in
  let o := Create (H:=exampleExternals) evm alice [] 1000 150 db0 in
  result o = ([], zeroAddress, Some ErrInsufficientBalance)
  /\ statedb.GetNonce (final o) 202 = 5.
Proof.
  intros evm o.
  assert (Hin : In (EvCanTransfer 202 150 false) (events o)).
  { vm_compute. left. reflexivity. }
  destruct (Create_transfer_denied (H:=exampleExternals) evm alice [] 1000 150
              db0 202 150 Hin) as (Ho & _ & _ & Hn).
  split; [ | exact Hn].
  unfold o. rewrite Ho. reflexivity.
Defined.

(** X5.  [Call], [CallCode] and [Create] ask the transfer permission at
    most once; when they do it is the first thing they do, for the address
    of the caller and the value of the invocation, on the state the
    invocation started in. *)
Theorem permission_asked_first `{Externals} evm caller addr input code gas
  value s o a v ok :
  o = events (Call evm caller addr input gas value s)
  \/ o = events (CallCode evm caller addr input gas value s)
  \/ o = events (Create evm caller code gas value s) ->
  In (EvCanTransfer a v ok) o ->
  a = ref_Address caller
  /\ v = value
  /\ ok = CanTransfer (evm_Context evm) s (ref_Address caller) value
  /\ head o = Some (EvCanTransfer a v ok)
  /\ count is_CanTransfer o = 1%nat.
Proof.
  intros [-> | [-> | ->]].
  all: follow.
  all: intros; read_log; simplify_eq.
  all: repeat split; congruence.
Qed.

Lemma permission_asked_first_witness :
  let evm := exampleEVM 0 false (Some 0) (Some 0) 10 (scripted hello None 50) in
  let o := events (Create (H:=exampleExternals) evm alice [] 1000 10 db0) in
  head o = Some (EvCanTransfer 202 10 true)
  /\ count is_CanTransfer o = 1%nat.
Proof.
  intros evm o.
  assert (Hin : In (EvCanTransfer 202 10 true) o).
  { vm_compute. left. reflexivity. }
  destruct (permission_asked_first (H:=exampleExternals) evm alice 303 [] []
              1000 10 db0 o 202 10 true (or_intror (or_intror eq_refl)) Hin)
    as (_ & _ & _ & Hhead & Hcount).
  split; [exact Hhead | exact Hcount].
Defined.

(** ** The frames *)

(** X6.  Whenever [Call] runs the interpreter, it runs the code of the
    target in the account of the target: the frame has the target as its
    account and as the address of its code, the code and the code hash
    stored at the target once the value has been transferred, the caller,
    the value and the gas of the invocation, and it is not a delegate
    frame; the interpreter gets the input of the invocation and starts on
    the state left by the transfer.  The value is transferred from the
    caller to the target exactly once, whatever the value, and the code of
    the target is fetched after the transfer and just before the run. *)
Theorem Call_frame `{Externals} evm caller addr input gas value s c i r :
  let o := Call evm caller addr input gas value s in
  let snap := snd (statedb.Snapshot s) in
  let st := Transfer (evm_Context evm)
              (if statedb.Exist s addr then snap
               else statedb.CreateAccount snap addr)
              (ref_Address caller) addr value in
  In (EvRun c i r) (events o) ->
  i = input
  /\ r = interpreter evm c input st
  /\ c_self c = addr
  /\ c_CodeAddr c = Some addr
  /\ c_Code c = statedb.GetCode st addr
  /\ c_CodeHash c = codeHash st addr
  /\ c_caller c = caller
  /\ c_CallerAddress c = ref_Address caller
  /\ c_value c = value
  /\ c_Gas c = gas
  /\ c_DelegateCall c = false
  /\ count is_Transfer (events o) = 1%nat
  /\ count is_Run (events o) = 1%nat
  /\ exists before after,
       events o
       = before
         ++ [EvTransfer (ref_Address caller) addr value;
             EvGetCodeHash addr; EvGetCode addr; EvRun c i r]
         ++ after.
Proof.
  cbv zeta. unfold Call. unfold_prims. cbn.
  change (statedb.Exist (snd (statedb.Snapshot s)) addr)
    with (statedb.Exist s addr).
  repeat (case_step; cbn).
  all: intros; read_log; simplify_eq.
  all: try (exfalso;
            match goal with
            | H1 : statedb.Exist (snd (statedb.Snapshot ?s0)) ?x = ?b,
              H2 : statedb.Exist ?s0 ?x = _ |- _ =>
                change (statedb.Exist s0 x = b) in H1; congruence
            end).
  all: repeat split.
  all: first
    [ exists [EvCanTransfer (ref_Address caller) value true;
              EvSnapshot (fst (statedb.Snapshot s));
              EvExist addr true;
              EvGetAccount addr]; eexists; reflexivity
    | exists [EvCanTransfer (ref_Address caller) value true;
              EvSnapshot (fst (statedb.Snapshot s));
              EvExist addr false;
              EvCreateAccount addr]; eexists; reflexivity ].
Qed.

Lemma Call_frame_witness :
  let evm := exampleEVM 0 false (Some 0) (Some 0) 10 (scripted hello None 50) in
  let held := mkStateDB {[ 202 := mkAccount 100 5 [x60; x01] ]} [] in
  let o := Call (H:=exampleExternals) evm alice 202 [x01] 1000 0 held in
  (exists c r, In (EvRun c [x01] r) (events o)
               /\ c_Code c = [x60; x01] /\ c_CodeHash c = 2)
  /\ In (EvTransfer 202 202 0) (events o)
  /\ count is_Transfer (events o) = 1%nat.
Proof.
  intros evm held o.
  pose (s1 := moveBalance (snd (statedb.Snapshot held)) 202 202 0).
  pose (c0 := SetCallCode (NewContract alice 202 0 1000) 202
                (codeHash (H:=exampleExternals) s1 202) (statedb.GetCode s1 202)).
  assert (Hin : In (EvRun c0 [x01] (interpreter evm c0 [x01] s1)) (events o)).
  { vm_compute. repeat first [left; reflexivity | right]. }
  destruct (Call_frame (H:=exampleExternals) evm alice 202 [x01] 1000 0 held
              c0 [x01] _ Hin)
    as (_ & _ & _ & _ & Hcode & Hhash & _ & _ & _ & _ & _ & Hcount & _
        & before & after & Hlog).
  split; [ | split; [ | exact Hcount]].
  - exists c0, (interpreter evm c0 [x01] s1).
    split; [exact Hin | split].
    + rewrite Hcode. reflexivity.
    + rewrite Hhash. reflexivity.
  - fold o in Hlog. rewrite Hlog. apply in_or_app. right. left. reflexivity.
Defined.

(** X7.  [CallCode] and [DelegateCall] run the code of [addr] in the
    account of the caller and touch nothing before the run: they check no
    existence, create no account and transfer no value (although
    [CallCode] has asked the permission to transfer), and the interpreter
    starts on the accounts the invocation started with.  The frame of
    [CallCode] has the caller as its account, [addr] as the address of its
    code, the code stored at [addr], the value and gas of the invocation,
    and is not a delegate frame. *)
Theorem CallCode_frame `{Externals} evm caller addr input gas value s :
  let o := CallCode evm caller addr input gas value s in
  let o' := DelegateCall evm caller addr input gas s in
  let untouched (l : list Event) :=
    (forall x b, ~ In (EvExist x b) l)
    /\ (forall x, ~ In (EvCreateAccount x) l)
    /\ (forall x y z, ~ In (EvTransfer x y z) l) in
  untouched (events o)
  /\ untouched (events o')
  /\ (forall c i r, In (EvRun c i r) (events o) ->
        i = input
        /\ r = interpreter evm c input (snd (statedb.Snapshot s))
        /\ c_self c = ref_Address caller
        /\ c_CallerAddress c = ref_Address caller
        /\ c_CodeAddr c = Some addr
        /\ c_Code c = statedb.GetCode s addr
        /\ c_CodeHash c = codeHash s addr
        /\ c_value c = value
        /\ c_Gas c = gas
        /\ c_DelegateCall c = false)
  /\ (forall c i r, In (EvRun c i r) (events o') ->
        i = input
        /\ r = interpreter evm c input (snd (statedb.Snapshot s))
        /\ c_CodeAddr c = Some addr
        /\ c_Code c = statedb.GetCode s addr
        /\ c_CodeHash c = codeHash s addr
        /\ c_Gas c = gas).
Proof.
  cbv zeta. split; [ | split; [ | split ]].
  1, 2: follow; repeat split; log_has_not.
  - intros c i r. unfold CallCode. unfold_prims. cbn.
    repeat (case_step; cbn).
    all: intros; read_log; simplify_eq.
    all: repeat split.
  - intros c i r. unfold DelegateCall. unfold_prims. cbn.
    repeat (case_step; cbn).
    all: intros; read_log; simplify_eq.
    all: repeat split.
Qed.

Lemma CallCode_frame_witness :
  let evm := exampleEVM 0 false (Some 0) (Some 0) 10 (scripted hello None 50) in
  let o := CallCode (H:=exampleExternals) evm alice 303 [x01] 1000 10 db0 in
  exists c r,
    In (EvRun c [x01] r) (events o)
    /\ c_self c = 202 /\ c_CodeAddr c = Some 303 /\ c_Code c = []
    /\ statedb.GetBalance (final o) 202 = 100
    /\ statedb.Exist (final o) 303 = false.
Proof.
  intros evm o.
  pose (c0 := SetCallCode (NewContract alice 202 10 1000) 303
                (codeHash (H:=exampleExternals) db0 303)
                (statedb.GetCode db0 303)).
  pose (r0 := interpreter evm c0 [x01] (snd (statedb.Snapshot db0))).
  assert (Hin : In (EvRun c0 [x01] r0) (events o)).
  { vm_compute. repeat first [left; reflexivity | right]. }
  destruct (CallCode_frame (H:=exampleExternals) evm alice 303 [x01] 1000 10
              db0) as (_ & _ & Hframe & _).
  destruct (Hframe c0 [x01] r0 Hin)
    as (_ & _ & Hself & _ & Haddr & Hcode & _).
  exists c0, r0. repeat split; assumption || reflexivity.
Defined.



(** ** The ways Create ends *)

(** X9.  A fault of the interpreter always undoes the creation, before and
    after Homestead alike: [Create] returns no output, the derived address
    and the fault; it installs no code, leaves the frame without gas and
    reverts to its snapshot, so that, with well-behaved collaborators, the
    state is the one it started in with the nonce of the caller
    incremented. *)
Theorem Create_fault_reverts `{Externals} evm caller code gas value s c i r
  msg :
  let o := Create evm caller code gas value s in
  In (EvRun c i r) (events o) ->
  run_err r = Some msg ->
  result o
  = ([], CreateAddress (ref_Address caller)
           (statedb.GetNonce s (ref_Address caller)),
     Some (ExecutionFault msg))
  /\ (forall a installed, ~ In (EvSetCode a installed) (events o))
  /\ (exists c', finalised o = Some c' /\ c_Gas c' = 0)
  /\ (exists id,
        In (EvSnapshot id) (events o)
        /\ In (EvRevertToSnapshot id) (events o)
        /\ final o = statedb.RevertToSnapshot (run_db r) id)
  /\ (well_behaved evm -> final o = nonce_bumped s caller).
Proof.
  cbv zeta. follow.
  all: intros; read_log; simplify_eq; bools; try congruence.
  all: try (exfalso;
            match goal with Hn : ~ (_ <> _) |- _ => apply Hn; discriminate end).
  all: unfold finalised, result, final, events; cbn; rewrite ?c_Gas_setGas.
  all: repeat split; eauto; try log_has_not.
  all: try (eexists; split; [log_has | split; [log_has | reflexivity]]).
  all: try (intros; apply revert_to_snapshot; keeps).
Qed.

Lemma Create_fault_reverts_witness :
  let evm := exampleEVM 0 false None None 10
               (scripted hello (Some "stack underflow"%string) 50) in
  let o := Create (H:=exampleExternals) evm alice [] 1000 10 db0 in
  result o
  = ([], 202 * uint64_mod + 5, Some (ExecutionFault "stack underflow"))
  /\ final o = nonce_bumped db0 alice.
Proof.
  intros evm o.
  pose (a := 202 * uint64_mod + 5).
  pose (s1 := moveBalance
                (statedb.CreateAccount
                   (snd (statedb.Snapshot (nonce_bumped db0 alice))) a)
                202 a 10).
  pose (c0 := SetCallCode (NewContract alice a 10 1000) a
                (Keccak256Hash (Externals:=exampleExternals) []) []).
  assert (Hin : In (EvRun c0 [] (interpreter evm c0 [] s1)) (events o)).
  { vm_compute. repeat first [left; reflexivity | right]. }
  destruct (Create_fault_reverts (H:=exampleExternals) evm alice [] 1000 10
              db0 c0 [] _ "stack underflow"%string Hin eq_refl)
    as (Hres & _ & _ & _ & Hfin).
  split; [exact Hres | ].
  exact (Hfin (exampleEVM_well_behaved _ _ _ _ _ _ _ _)).
Defined.

(** X10.  A successful creation charges the frame the price of the code
    and nothing more: the frame is finalised with the gas the interpreter
    left less [CreateDataGas] for each byte of the code.  Nothing is
    reverted and no gas is returned to the caller by [Create] itself, and
    this does not depend on the chain configuration. *)
Theorem Create_success_gas `{Externals} evm caller code gas value s c i r :
  let o := Create evm caller code gas value s in
  let price := Z.of_nat (length (run_ret r)) * CreateDataGas in
  In (EvRun c i r) (events o) ->
  run_err r = None ->
  Z.of_nat (length (run_ret r)) <= MaxCodeSize ->
  price <= run_Gas r ->
  finalised o = Some (setGas c (run_Gas r - price))
  /\ (forall id, ~ In (EvRevertToSnapshot id) (events o))
  /\ (forall cl g, ~ In (EvReturnGas cl g) (events o))
  /\ count is_Run (events o) = 1%nat.
Proof.
  cbv zeta. follow.
  all: intros; read_log; simplify_eq; bools; try lia; try congruence.
  all: unfold finalised, events; cbn.
  all: repeat split; try log_has_not.
Qed.

Lemma Create_success_gas_witness :
  let evm := exampleEVM 0 false (Some 0) (Some 0) 10 (scripted hello None 50) in
  let o := Create (H:=exampleExternals) evm alice [] 1000 10 db0 in
  exists c', finalised o = Some c' /\ c_Gas c' = 550.
Proof.
  intros evm o.
  pose (a := 202 * uint64_mod + 5).
  pose (s1 := moveBalance
                (statedb.SetNonce
                   (statedb.CreateAccount
                      (snd (statedb.Snapshot (nonce_bumped db0 alice))) a) a 1)
                202 a 10).
  pose (c0 := SetCallCode (NewContract alice a 10 1000) a
                (Keccak256Hash (Externals:=exampleExternals) []) []).
  assert (Hin : In (EvRun c0 [] (interpreter evm c0 [] s1)) (events o)).
  { vm_compute. repeat first [left; reflexivity | right]. }
  destruct (Create_success_gas (H:=exampleExternals) evm alice [] 1000 10 db0
              c0 [] _ Hin eq_refl) as (Hfin & _).
  { vm_compute. discriminate. }
  { vm_compute. discriminate. }
  eexists. split; [exact Hfin | reflexivity].
Defined.

(** X11.  The errors each entry point can return.  [Call]: none,
    [ErrDepth], [ErrInsufficientBalance] or a fault of the interpreter.
    [CallCode]: none, [ErrDepth], the insufficient-funds error for the
    value of the invocation, or a fault.  [Create]: none, [ErrDepth],
    [ErrInsufficientBalance], [ErrCodeStoreOutOfGas] or a fault; and when
    [Create] returns an error without having run the interpreter, or any
    error but [ErrCodeStoreOutOfGas], it returns no output. *)
Theorem error_kinds `{Externals} evm caller addr input code gas value s :
  match snd (result (Call evm caller addr input gas value s)) with
  | None | Some ErrDepth | Some ErrInsufficientBalance
  | Some (ExecutionFault _) => True
  | _ => False
  end
  /\ match snd (result (CallCode evm caller addr input gas value s)) with
     | None | Some ErrDepth | Some (ExecutionFault _) => True
     | Some (ErrInsufficientFunds req has) =>
         req = value /\ has = statedb.GetBalance s (ref_Address caller)
     | _ => False
     end
  /\ match snd (result (Create evm caller code gas value s)) with
     | None | Some ErrDepth | Some ErrInsufficientBalance
     | Some ErrCodeStoreOutOfGas | Some (ExecutionFault _) => True
     | _ => False
     end.
Proof.
  repeat split.
  all: follow; unfold result; cbn; auto.
Qed.

(** ** What every invocation keeps *)

(** X12.  The entry points call [ReturnGas] on the caller themselves only
    on the paths that end before a frame is built.  An invocation either
    makes that call, once, for all the gas of the invocation and to the
    caller of the invocation, or it builds a frame, runs the interpreter
    once and leaves the gas that remains on the frame to the deferred
    [Finalise]: never both and never neither. *)
Theorem direct_ReturnGas_or_run `{Externals} evm caller addr input code gas
  value s l :
  l = events (Call evm caller addr input gas value s)
  \/ l = events (CallCode evm caller addr input gas value s)
  \/ l = events (DelegateCall evm caller addr input gas s)
  \/ l = events (Create evm caller code gas value s) ->
  (count is_ReturnGas l + count is_Run l = 1)%nat
  /\ (count is_ReturnGas l + count is_Finalise l = 1)%nat
  /\ (forall cl g, In (EvReturnGas cl g) l -> cl = caller /\ g = gas).
Proof.
  intros [-> | [-> | [-> | ->]]].
  all: follow.
  all: split; [reflexivity | split; [reflexivity | ]].
  all: intros; read_log; simplify_eq; split; reflexivity.
Qed.

Lemma direct_ReturnGas_or_run_witness :
  let evm := exampleEVM 0 false (Some 0) (Some 0) 10 (scripted hello None 50) in
  let l := events (Call (H:=exampleExternals) evm alice 303 [] 1000 0 db0) in
  count is_ReturnGas l = 1%nat /\ count is_Run l = 0%nat
  /\ count is_Finalise l = 0%nat
  /\ In (EvReturnGas alice 1000) l.
Proof.
  intros evm l.
  destruct (direct_ReturnGas_or_run (H:=exampleExternals) evm alice 303 [] []
              1000 0 db0 l (or_introl eq_refl)) as (Hone & Hfin & Hall).
  assert (Hin : exists cl g, In (EvReturnGas cl g) l).
  { exists alice, 1000. vm_compute. repeat first [left; reflexivity | right]. }
  destruct Hin as (cl & g & Hin). destruct (Hall cl g Hin) as [-> ->].
  assert (Hrun : count is_Run l = 0%nat) by reflexivity.
  rewrite Hrun, Nat.add_0_r in Hone. rewrite Hone in Hfin.
  split; [exact Hone | split; [exact Hrun | split; [ | exact Hin]]].
  apply (Nat.add_cancel_l _ 0%nat 1%nat). exact Hfin.
Defined.

(** X13.  The frame is finalised exactly when the interpreter has run:
    then once, as the last thing the invocation does, and on the frame that
    was run, whose gas alone may have changed.  An invocation that ends
    before the run finalises nothing. *)
Theorem finalised_iff_ran `{Externals} evm caller addr input code gas value
  s l :
  l = events (Call evm caller addr input gas value s)
  \/ l = events (CallCode evm caller addr input gas value s)
  \/ l = events (DelegateCall evm caller addr input gas s)
  \/ l = events (Create evm caller code gas value s) ->
  count is_Finalise l = count is_Run l
  /\ (count is_Run l <= 1)%nat
  /\ (forall c i r, In (EvRun c i r) l ->
        exists g, last l = Some (EvFinalise (setGas c g)))
  /\ (forall c', In (EvFinalise c') l ->
        exists c i r, In (EvRun c i r) l /\ setGas c' (c_Gas c) = c).
Proof.
  intros [-> | [-> | [-> | ->]]].
  all: follow.
  all: split; [reflexivity | split; [cbn; lia | split]].
  all: intros; read_log; simplify_eq.
  all: try (eexists; reflexivity).
  all: do 3 eexists; split; [log_has | reflexivity].
Qed.

Lemma finalised_iff_ran_witness :
  let evm := exampleEVM 0 false (Some 0) (Some 0) 10
               (scripted hello (Some "invalid jump"%string) 50) in
  let l := events (DelegateCall (H:=exampleExternals) evm alice 303 [] 1000
                     db0) in
  count is_Finalise l = 1%nat
  /\ exists c, last l = Some (EvFinalise c) /\ c_Gas c = 0.
Proof.
  intros evm l.
  destruct (finalised_iff_ran (H:=exampleExternals) evm alice 303 [] [] 1000 0
              db0 l (or_intror (or_intror (or_introl eq_refl))))
    as (Hcount & _ & Hlast & _).
  split; [rewrite Hcount; reflexivity | ].
  pose (c0 := SetCallCode (AsDelegate (NewContract alice 202 0 1000)) 303
                (codeHash (H:=exampleExternals) db0 303)
                (statedb.GetCode db0 303)).
  assert (Hin : In (EvRun c0 []
                      (interpreter evm c0 [] (snd (statedb.Snapshot db0)))) l).
  { vm_compute. repeat first [left; reflexivity | right]. }
  destruct (Hlast _ _ _ Hin) as [g Hg].
  exists (setGas c0 0). split; reflexivity.
Defined.

(** X14.  An invocation takes at most one snapshot and reverts at most
    once, only to the snapshot it has taken itself, only after the
    interpreter has run, and only when it returns an error: an invocation
    that succeeds never reverts. *)
Theorem reverts_own_snapshot_on_error `{Externals} evm caller addr input code
  gas value s l e :
  (l, e) = (events (Call evm caller addr input gas value s),
            snd (result (Call evm caller addr input gas value s)))
  \/ (l, e) = (events (CallCode evm caller addr input gas value s),
               snd (result (CallCode evm caller addr input gas value s)))
  \/ (l, e) = (events (DelegateCall evm caller addr input gas s),
               snd (result (DelegateCall evm caller addr input gas s)))
  \/ (l, e) = (events (Create evm caller code gas value s),
               snd (result (Create evm caller code gas value s))) ->
  (count is_Snapshot l <= 1)%nat
  /\ (count is_Revert l <= 1)%nat
  /\ (forall id, In (EvRevertToSnapshot id) l ->
        In (EvSnapshot id) l
        /\ (exists c i r, In (EvRun c i r) l)
        /\ e <> None).
Proof.
  intros [E | [E | [E | E]]]; injection E as -> ->.
  all: follow.
  all: unfold result; cbn.
  all: split; [lia | split; [lia | ]].
  all: intros; read_log; simplify_eq.
  all: split; [log_has | split; [do 3 eexists; log_has | ]].
  all: try discriminate.
  all: bools; congruence.
Qed.

Lemma reverts_own_snapshot_on_error_witness :
  let evm := exampleEVM 0 false (Some 0) (Some 0) 10
               (scripted hello (Some "invalid jump"%string) 50) in
  let o := CallCode (H:=exampleExternals) evm alice 303 [] 1000 10 db0 in
  In (EvSnapshot 0) (events o) /\ snd (result o) <> None.
Proof.
  intros evm o.
  assert (Hin : In (EvRevertToSnapshot 0) (events o)).
  { vm_compute. repeat first [left; reflexivity | right]. }
  destruct (reverts_own_snapshot_on_error (H:=exampleExternals) evm alice 303
              [] [] 1000 10 db0 (events o) (snd (result o))
              (or_intror (or_introl eq_refl)))
    as (_ & _ & Hrev).
  destruct (Hrev 0%nat Hin) as (Hsnap & _ & Herr).
  split; [exact Hsnap | exact Herr].
Defined.

(** X15.  An invocation in which the interpreter does not run changes no
    account and returns no output.  [Call], [CallCode] and [DelegateCall]
    leave the accounts as they were; [Create] leaves the whole state as it
    was, the nonce of the caller included, and returns the zero address. *)
Theorem no_run_no_change `{Externals} evm caller addr input code gas value s :
  let o1 := Call evm caller addr input gas value s in
  let o2 := CallCode evm caller addr input gas value s in
  let o3 := DelegateCall evm caller addr input gas s in
  let o4 := Create evm caller code gas value s in
  (~ ran o1 -> accounts (final o1) = accounts s /\ fst (result o1) = [])
  /\ (~ ran o2 -> final o2 = s /\ fst (result o2) = [])
  /\ (~ ran o3 -> final o3 = s /\ fst (result o3) = [])
  /\ (~ ran o4 ->
        final o4 = s
        /\ fst (fst (result o4)) = []
        /\ snd (fst (result o4)) = zeroAddress).
Proof.
  cbv zeta. unfold ran. repeat split.
  all: match goal with Hn : ~ _ |- _ => revert Hn end; follow.
  all: unfold result, final, events; cbn; intros Hno; try reflexivity.
  all: exfalso; apply Hno; do 3 eexists; log_has.
Qed.

Lemma no_run_no_change_witness :
  let evm := exampleEVM 2000 false (Some 0) (Some 0) 10
               (scripted hello None 50) in
  let o := Create (H:=exampleExternals) evm alice [] 1000 10 db0 in
  final o = db0 /\ snd (fst (result o)) = zeroAddress.
Proof.
  intros evm o.
  destruct (no_run_no_change (H:=exampleExternals) evm alice 303 [] [] 1000 10
              db0) as (_ & _ & _ & Hc).
  destruct Hc as (Hfin & _ & Haddr).
  { intros (c & i & r & Hin). vm_compute in Hin.
    destruct Hin as [Hin | []]. discriminate Hin. }
  split; [exact Hfin | exact Haddr].
Defined.

(** X16.  [Call] creates no account but the target, and the target only
    when it has no account in the state the invocation started in and the
    call is not the zero-value call to a non-precompiled address under the
    empty-account rule; a target that exists is fetched, never created. *)
Theorem Call_creates_only_absent_target `{Externals} evm caller addr input gas
  value s x :
  let o := Call evm caller addr input gas value s in
  In (EvCreateAccount x) (events o) ->
  x = addr
  /\ statedb.Exist s addr = false
  /\ ~ (PrecompiledContracts !! addr = None
        /\ params.IsEIP158 (ChainConfig evm) (BlockNumber (evm_Context evm))
           = true
        /\ value = 0)
  /\ (forall y, ~ In (EvGetAccount y) (events o)).
Proof.
  cbv zeta. follow.
  all: intros; read_log; simplify_eq.
  all: repeat split; try assumption.
  all: try (intros (Hp & He & Hv); subst value;
            rewrite (bool_decide_eq_true_2 _ Hp), He in *; discriminate).
  all: log_has_not.
Qed.

Lemma Call_creates_only_absent_target_witness :
  let evm := exampleEVM 0 false (Some 0) None 10 (scripted hello None 50) in
  let o := Call (H:=exampleExternals) evm alice 303 [] 1000 0 db0 in
  In (EvCreateAccount 303) (events o) /\ statedb.Exist db0 303 = false.
Proof.
  intros evm o.
  assert (Hin : In (EvCreateAccount 303) (events o)).
  { vm_compute. repeat first [left; reflexivity | right]. }
  destruct (Call_creates_only_absent_target (H:=exampleExternals) evm alice
              303 [] 1000 0 db0 303 Hin) as (_ & Habsent & _).
  split; [exact Hin | exact Habsent].
Defined.

(** ** Creations in sequence *)

Lemma uint64_add_1_neq n :
  0 <= n < uint64_mod ->
  uint64_add n 1 <> n /\ 0 <= uint64_add n 1 < uint64_mod.
Proof.
  intros Hn. unfold uint64_add. split.
  - destruct (Z.eq_dec n (uint64_mod - 1)) as [-> | Hne].
    + replace (uint64_mod - 1 + 1) with (1 * uint64_mod) by lia.
      rewrite Z.mod_mul by (unfold uint64_mod; lia).
      unfold uint64_mod. lia.
    + rewrite Z.mod_small by lia. lia.
  - apply Z.mod_pos_bound. unfold uint64_mod. lia.
Qed.

Lemma Create_reverted `{Externals} evm caller code gas value s id :
  well_behaved evm ->
  In (EvRevertToSnapshot id) (events (Create evm caller code gas value s)) ->
  final (Create evm caller code gas value s) = nonce_bumped s caller
  /\ snd (fst (result (Create evm caller code gas value s)))
     = CreateAddress (ref_Address caller)
         (statedb.GetNonce s (ref_Address caller)).
Proof.
  intros Hwb. follow.
  all: intros; read_log; simplify_eq.
  all: unfold final, result; cbn; split; try reflexivity.
  all: apply revert_to_snapshot; keeps.
Qed.

Lemma Create_reads_nonce `{Externals} evm caller code gas value s a n :
  In (EvGetNonce a n) (events (Create evm caller code gas value s)) ->
  n = statedb.GetNonce s (ref_Address caller)
  /\ snd (fst (result (Create evm caller code gas value s)))
     = CreateAddress (ref_Address caller) n.
Proof.
  follow.
  all: intros; read_log; simplify_eq; split; reflexivity.
Qed.

(** X17.  A creation that fails and is reverted still uses up the nonce of
    the caller: with well-behaved collaborators, the next creation by the
    same caller, started in the state the failed one left, reads the
    incremented nonce and derives its address from it; when the derivation
    is injective in the nonce, that address differs from the one the failed
    creation returned. *)
Theorem reverted_Create_uses_nonce `{Externals} evm evm' caller caller' code
  code' gas gas' value value' s id a' n' :
  let a := ref_Address caller in
  let n := statedb.GetNonce s a in
  let o := Create evm caller code gas value s in
  let o' := Create evm' caller' code' gas' value' (final o) in
  well_behaved evm ->
  In (EvRevertToSnapshot id) (events o) ->
  ref_Address caller' = a ->
  In (EvGetNonce a' n') (events o') ->
  n' = uint64_add n 1
  /\ snd (fst (result o')) = CreateAddress a (uint64_add n 1)
  /\ (nonce_injective -> 0 <= n < uint64_mod ->
        snd (fst (result o')) <> snd (fst (result o))).
Proof.
  intros a n o o' Hwb Hrev Hsame Hread.
  destruct (Create_reverted evm caller code gas value s id Hwb Hrev)
    as [Hfin Haddr].
  destruct (Create_reads_nonce evm' caller' code' gas' value' (final o) a' n'
              Hread) as [Hn' Haddr'].
  fold o in Hfin, Haddr. fold o' in Haddr'.
  assert (En : n' = uint64_add n 1).
  { rewrite Hn', Hfin, Hsame. apply GetNonce_SetNonce. }
  clear Hn'. rewrite Hsame, En in Haddr'.
  split; [exact En | split; [exact Haddr' | ]].
  intros Hinj Hrange Heq. rewrite Haddr', Haddr in Heq.
  destruct (uint64_add_1_neq n Hrange) as [Hne Hr'].
  apply Hne. exact (Hinj a _ _ Hr' Hrange Heq).
Qed.

Lemma reverted_Create_uses_nonce_witness :
  let failing := exampleEVM 0 false (Some 0) (Some 0) 10
                   (scripted hello (Some "invalid opcode"%string) 50) in
  let evm := exampleEVM 0 false (Some 0) (Some 0) 10 (scripted hello None 50) in
  let o := Create (H:=exampleExternals) failing alice [] 1000 10 db0 in
  let o' := Create (H:=exampleExternals) evm alice [] 1000 10 (final o) in
  snd (fst (result o')) = 202 * uint64_mod + 6
  /\ snd (fst (result o')) <> snd (fst (result o)).
Proof.
  intros failing evm o o'.
  assert (Hrev : In (EvRevertToSnapshot 0) (events o)).
  { vm_compute. repeat first [left; reflexivity | right]. }
  assert (Hread : In (EvGetNonce 202 6) (events o')).
  { vm_compute. repeat first [left; reflexivity | right]. }
  destruct (reverted_Create_uses_nonce (H:=exampleExternals) failing evm alice
              alice [] [] 1000 1000 10 10 db0 0 202 6
              (exampleEVM_well_behaved _ _ _ _ _ _ _ _) Hrev eq_refl Hread)
    as (_ & Haddr & Hdiff).
  split; [exact Haddr | ].
  apply Hdiff; [apply externalsWith_nonce_injective | ].
  vm_compute. split; [discriminate | reflexivity].
Defined.

(** ** The errors of the entry checks *)

(** X18.  An invocation fails with [ErrDepth] exactly when its depth is
    above the maximum and the no-recursion mode has not answered first;
    within the maximum depth no entry point ever returns [ErrDepth]. *)
Theorem ErrDepth_iff `{Externals} evm caller addr input code gas value s e :
  e = snd (result (Call evm caller addr input gas value s))
  \/ e = snd (result (CallCode evm caller addr input gas value s))
  \/ e = snd (result (DelegateCall evm caller addr input gas s))
  \/ e = snd (result (Create evm caller code gas value s)) ->
  e = Some ErrDepth
  <-> no_recursion_applies evm = false /\ depth evm > CallCreateDepth.
Proof.
  intros [-> | [-> | [-> | ->]]].
  all: follow.
  all: unfold result; cbn; bools.
  all: split; [intros E; try discriminate E | intros [E1 E2]; try discriminate E1].
  all: try reflexivity.
  all: try (split; [apply andb_false_iff; auto | lia]).
  all: try lia.
  all: try (exfalso; bools; congruence).
Qed.

Lemma ErrDepth_iff_witness :
  let evm := exampleEVM 1025 false (Some 0) (Some 0) 10
               (scripted hello None 50) in
  snd (result (DelegateCall (H:=exampleExternals) evm alice 303 [] 1000 db0))
  = Some ErrDepth.
Proof.
  intros evm.
  apply (proj2 (ErrDepth_iff (H:=exampleExternals) evm alice 303 [] [] 1000 0
                  db0 _ (or_intror (or_intror (or_introl eq_refl))))).
  split; reflexivity.
Defined.

(** X19.  [Call] and [Create] fail with [ErrInsufficientBalance], and
    [CallCode] with its insufficient-funds error, exactly when the
    no-recursion and depth checks have passed and the transfer-permission
    callback rejects the value on the state the invocation started in: of
    the three entry checks the first that fails decides the outcome. *)
Theorem insufficient_iff `{Externals} evm caller addr input code gas value s :
  let denied :=
    no_recursion_applies evm = false
    /\ depth evm <= CallCreateDepth
    /\ CanTransfer (evm_Context evm) s (ref_Address caller) value = false in
  (snd (result (Call evm caller addr input gas value s))
     = Some ErrInsufficientBalance <-> denied)
  /\ (snd (result (Create evm caller code gas value s))
        = Some ErrInsufficientBalance <-> denied)
  /\ ((exists req has,
         snd (result (CallCode evm caller addr input gas value s))
         = Some (ErrInsufficientFunds req has)) <-> denied).
Proof.
  cbv zeta. split; [ | split]; split.
  all: follow; unfold result; cbn; intros Hyp.
  all: try discriminate Hyp.
  all: try (destruct Hyp as (req & has & Hyp); discriminate Hyp).
  all: try (destruct Hyp as (E1 & E2 & E3);
            first [ discriminate E3 | congruence
                  | exfalso; rewrite Z.gtb_ltb in *;
                    match goal with Hd : (_ <? _) = true |- _ =>
                      apply Z.ltb_lt in Hd; lia end
                  | reflexivity | do 2 eexists; reflexivity ]).
  all: repeat split; auto.
  all: match goal with Hd : (_ >? _) = false |- _ =>
         rewrite Z.gtb_ltb in Hd; apply Z.ltb_ge in Hd; exact Hd end.
Qed.

Lemma insufficient_iff_witness :
  let evm := exampleEVM 0 false (Some 0) (Some 0) 10 (scripted hello None 50) in
  exists req has,
    snd (result (CallCode (H:=exampleExternals) evm alice 303 [] 1000 150 db0))
    = Some (ErrInsufficientFunds req has).
Proof.
  intros evm.
  destruct (insufficient_iff (H:=exampleExternals) evm alice 303 [] [] 1000
              150 db0) as (_ & _ & Hcc).
  apply (proj2 Hcc). split; [reflexivity | split; [cbn; lia | reflexivity]].
Defined.
